(** * Causal self-attention (App-B-Transformer-Basic.ipynb)

    A shallow embedding of the notebook's [CausalAttention] module and of
    the tensor operations its [forward] method calls.

    Numbers.  Tensor entries are real numbers, where the code computes
    with 32-bit floats.  Theorems on shapes, errors, the mask, the
    generator, and on how [forward] composes its operations do not depend
    on the arithmetic.  A theorem that gives the value of an attention
    weight or of a context vector for every input assumes a positive
    output width and entries and weights within [magnitude_limit], where
    no float operation of [forward] overflows or meets a nan, and names
    only values (0, 1, or an entry passed through unchanged) that float
    arithmetic produces without rounding.  The one special value the code
    itself writes into a tensor, [-torch.inf], is modelled by the type
    [xreal].  The mask buffer only ever holds the floats 0.0 and 1.0; its
    entries are rationals so that [.bool()] is a decidable test.

    Shapes.  A tensor carries its shape next to its entries, as a torch
    tensor does, and every operation checks shapes the way torch does,
    raising [RuntimeError] on a mismatch.

    Randomness.  Dropout draws from the global random generator, which
    is threaded through [forward] as explicit state. *)

From Stdlib Require Import List Arith Bool Lia ZArith QArith Reals Qreals Lra.
Import ListNotations.

Set Implicit Arguments.

(** ** Errors and the evaluation monad *)

Inductive exn : Type :=
| RuntimeError   (* raised by a tensor operation on a shape mismatch *)
| ValueError     (* raised by a constructor on an invalid argument *)
| TypeError.     (* raised on an object of the wrong kind *)

Inductive result (A : Type) : Type :=
| Ok (a : A)
| Raise (e : exn).
Arguments Ok {A} a.
Arguments Raise {A} e.

Definition is_ok {A} (r : result A) : bool :=
  match r with Ok _ => true | Raise _ => false end.

(** The global random generator: the outcomes it will produce (one
    Bernoulli keep/drop decision per draw) and how many were consumed. *)
Record Generator : Type := mkGen {
  tape : nat -> bool;
  offset : nat
}.

Definition advance (g : Generator) (k : nat) : Generator :=
  mkGen (tape g) (offset g + k).

Definition M (A : Type) : Type := Generator -> result (A * Generator).

Definition ret {A} (a : A) : M A := fun g => Ok (a, g).

Definition bind {A B} (c : M A) (k : A -> M B) : M B :=
  fun g => match c g with
           | Ok (a, g') => k a g'
           | Raise e => Raise e
           end.

Definition lift {A} (r : result A) : M A :=
  fun g => match r with Ok a => Ok (a, g) | Raise e => Raise e end.

Definition and_then {A B} (r : result A) (k : A -> result B) : result B :=
  match r with Ok a => k a | Raise e => Raise e end.

Definition value_of {A} (r : result (A * Generator)) : result A :=
  and_then r (fun ag => Ok (fst ag)).

Declare Scope torch_scope.
Notation "x <- c ;; k" := (bind c (fun x => k))
  (at level 61, c at next level, right associativity) : torch_scope.
Notation "' pat <- c ;; k" := (bind c (fun x => let pat := x in k))
  (at level 61, pat pattern, c at next level, right associativity) : torch_scope.
Notation "x <~ r ;; k" := (and_then r (fun x => k))
  (at level 61, r at next level, right associativity) : torch_scope.
Local Open Scope torch_scope.

(** ** Tensors *)

Definition tab {A} (n : nat) (f : nat -> A) : list A := map f (seq 0 n).

Record tensor2 (A : Type) : Type := T2 {
  rows : nat;
  cols : nat;
  data2 : list (list A)
}.

Record tensor3 (A : Type) : Type := T3 {
  dim0 : nat;
  dim1 : nat;
  dim2 : nat;
  data3 : list (list (list A))
}.

Definition get2 {A} (d : A) (t : tensor2 A) (i j : nat) : A :=
  nth j (nth i (data2 t) []) d.

Definition get3 {A} (d : A) (t : tensor3 A) (b i j : nat) : A :=
  nth j (nth i (nth b (data3 t) []) []) d.

(** Row [i] of batch element [b]. *)
Definition row3 {A} (t : tensor3 A) (b i : nat) : list A :=
  nth i (nth b (data3 t) []) [].

Definition build2 {A} (r c : nat) (f : nat -> nat -> A) : tensor2 A :=
  T2 r c (tab r (fun i => tab c (f i))).

Definition build3 {A} (b n d : nat) (f : nat -> nat -> nat -> A) : tensor3 A :=
  T3 b n d (tab b (fun bi => tab n (fun i => tab d (f bi i)))).

Definition numel {A} (t : tensor3 A) : nat := dim0 t * dim1 t * dim2 t.

(** Entries are stored in row-major order. *)
Definition flat_index {A} (t : tensor3 A) (b i j : nat) : nat :=
  (b * dim1 t + i) * dim2 t + j.

Local Open Scope R_scope.

Definition sum_upto (n : nat) (f : nat -> R) : R :=
  fold_right Rplus 0 (tab n f).

(** A float that is a real number or the [-inf] written by [masked_fill_]. *)
Inductive xreal : Type :=
| Fin (r : R)
| NegInf.

(** [-inf / c = -inf] for a positive divisor [c]; the divisor of
    [forward] is [sqrt d_out], positive for a positive output width. *)
Definition xdiv (s : xreal) (c : R) : xreal :=
  match s with Fin r => Fin (r / c) | NegInf => NegInf end.

(** [exp (-inf) = 0]. *)
Definition xexp (s : xreal) : R :=
  match s with Fin r => exp r | NegInf => 0 end.

(** ** Tensor operations of torch used by the module *)

(** [torch.ones(r, c)] *)
Definition ones (r c : nat) : tensor2 Q := build2 r c (fun _ _ => 1%Q).

(** [torch.triu(t, diagonal)]: entries on and above the given diagonal
    are kept, the others are zero. *)
Definition triu (t : tensor2 Q) (diagonal : Z) : tensor2 Q :=
  build2 (rows t) (cols t)
    (fun i j => if (diagonal <=? Z.of_nat j - Z.of_nat i)%Z
                then get2 0%Q t i j else 0%Q).

(** [t.bool()]: an entry is [True] when it is not zero. *)
Definition to_bool (t : tensor2 Q) : tensor2 bool :=
  build2 (rows t) (cols t) (fun i j => negb (Qeq_bool (get2 0%Q t i j) 0)).

(** [t[:r, :c]]: a slice bound beyond the tensor's size is clamped. *)
Definition slice2 {A} (d : A) (t : tensor2 A) (r c : nat) : tensor2 A :=
  build2 (Nat.min r (rows t)) (Nat.min c (cols t)) (get2 d t).

(** [t.transpose(1, 2)] *)
Definition transpose12 (t : tensor3 R) : tensor3 R :=
  build3 (dim0 t) (dim2 t) (dim1 t) (fun b i j => get3 0 t b j i).

(** [a @ b] on two 3-d tensors with the same batch size: a matrix product
    per batch element. *)
Definition matmul (a b : tensor3 R) : result (tensor3 R) :=
  if (dim0 a =? dim0 b)%nat && (dim2 a =? dim1 b)%nat then
    Ok (build3 (dim0 a) (dim1 a) (dim2 b)
          (fun bi i j =>
             sum_upto (dim2 a) (fun k => get3 0 a bi i k * get3 0 b bi k j)))
  else Raise RuntimeError.

(** Broadcasting of a dimension of size [m] to size [n]: allowed when the
    sizes agree or [m] is 1; a dimension of size 1 is read at index 0. *)
Definition broadcastable (m n : nat) : bool := (m =? n)%nat || (m =? 1)%nat.

Definition bcast (m i : nat) : nat := if (m =? 1)%nat then 0%nat else i.

(** [t.masked_fill_(mask, value)]: the 2-d mask is broadcast to the shape
    of [t]; entries under a [True] are overwritten by [value]. *)
Definition masked_fill_ (t : tensor3 R) (mask : tensor2 bool) (value : xreal)
  : result (tensor3 xreal) :=
  if broadcastable (rows mask) (dim1 t) && broadcastable (cols mask) (dim2 t) then
    Ok (build3 (dim0 t) (dim1 t) (dim2 t)
          (fun b i j =>
             if get2 false mask (bcast (rows mask) i) (bcast (cols mask) j)
             then value else Fin (get3 0 t b i j)))
  else Raise RuntimeError.

(** [t / c] for a Python float [c] *)
Definition div_scalar (t : tensor3 xreal) (c : R) : tensor3 xreal :=
  build3 (dim0 t) (dim1 t) (dim2 t) (fun b i j => xdiv (get3 NegInf t b i j) c).

(** [torch.softmax(t, dim=-1)] *)
Definition softmax (t : tensor3 xreal) : tensor3 R :=
  build3 (dim0 t) (dim1 t) (dim2 t)
    (fun b i j =>
       xexp (get3 NegInf t b i j)
       / sum_upto (dim2 t) (fun k => xexp (get3 NegInf t b i k))).

(** ** nn.Linear *)

Record Linear : Type := mkLinear {
  in_features : nat;
  out_features : nat;
  weight : list (list R);       (* out_features x in_features *)
  bias : option (list R)        (* out_features, when present *)
}.

Definition Linear_init (d_in d_out : nat) (use_bias : bool)
    (w : list (list R)) (b : list R) : Linear :=
  mkLinear d_in d_out w (if use_bias then Some b else None).

Definition weight_at (l : Linear) (o a : nat) : R := nth a (nth o (weight l) []) 0.

Definition bias_at (l : Linear) (o : nat) : R :=
  match bias l with Some b => nth o b 0 | None => 0 end.

(** [y = x W^T + b] on the last dimension of [x]. *)
Definition Linear_forward (l : Linear) (x : tensor3 R) : result (tensor3 R) :=
  if (dim2 x =? in_features l)%nat then
    Ok (build3 (dim0 x) (dim1 x) (out_features l)
          (fun b i o =>
             sum_upto (in_features l) (fun a => get3 0 x b i a * weight_at l o a)
             + bias_at l o))
  else Raise RuntimeError.

(** ** nn.Dropout *)

(** In evaluation mode or with [p = 0] the input is returned as it is and
    no random number is drawn.  With [p = 1] every entry is multiplied by
    zero.  Otherwise every entry is kept with probability [1 - p] and a
    kept entry is scaled by [1 / (1 - p)]; one draw is consumed per entry. *)
Definition Dropout_forward (p : Q) (training : bool) (t : tensor3 R) : M (tensor3 R) :=
  fun g =>
    if Qeq_bool p 0 || negb training then Ok (t, g)
    else if Qeq_bool p 1 then
      Ok (build3 (dim0 t) (dim1 t) (dim2 t) (fun b i j => get3 0 t b i j * 0), g)
    else
      Ok (build3 (dim0 t) (dim1 t) (dim2 t)
            (fun b i j =>
               get3 0 t b i j *
               (if tape g (offset g + flat_index t b i j)
                then / (1 - Q2R p) else 0)),
          advance g (numel t)).

(** ** The module *)

Record CausalAttention : Type := mkCA {
  d_out : nat;
  W_query : Linear;
  W_key : Linear;
  W_value : Linear;
  dropout : Q;
  mask : tensor2 Q;
  training : bool
}.

(** The initial entries of the three projections, which [nn.Linear]
    draws at random, are arguments of the constructor. *)
Record qkv_values : Type := mkQKV {
  query_w : list (list R);  query_b : list R;
  key_w : list (list R);    key_b : list R;
  value_w : list (list R);  value_b : list R
}.

(** [CausalAttention.__init__]; [nn.Dropout] rejects a probability
    outside [0, 1], and a new module is in training mode. *)
Definition init (d_in d_out context_length : nat) (dropout : Q)
    (qkv_bias : bool) (th : qkv_values) : result CausalAttention :=
  if Qle_bool 0 dropout && Qle_bool dropout 1 then
    Ok (mkCA d_out
          (Linear_init d_in d_out qkv_bias (query_w th) (query_b th))
          (Linear_init d_in d_out qkv_bias (key_w th) (key_b th))
          (Linear_init d_in d_out qkv_bias (value_w th) (value_b th))
          dropout
          (triu (ones context_length context_length) 1)
          true)
  else Raise ValueError.

(** The first part of [forward], up to the softmax: the attention weights
    and the value projections. *)
Definition attention_weights (self : CausalAttention) (x : tensor3 R)
  : result (tensor3 R * tensor3 R) :=
  let num_tokens := dim1 x in
  keys <~ Linear_forward (W_key self) x ;;
  queries <~ Linear_forward (W_query self) x ;;
  values <~ Linear_forward (W_value self) x ;;
  attn_scores <~ matmul queries (transpose12 keys) ;;
  attn_scores <~ masked_fill_ attn_scores
                   (slice2 false (to_bool (mask self)) num_tokens num_tokens)
                   NegInf ;;
  Ok (softmax (div_scalar attn_scores (sqrt (INR (dim2 keys)))), values).

(** [CausalAttention.forward] *)
Definition forward (self : CausalAttention) (x : tensor3 R) : M (tensor3 R) :=
  '(attn_weights, values) <- lift (attention_weights self x) ;;
  attn_weights <- Dropout_forward (dropout self) (training self) attn_weights ;;
  context_vec <- lift (matmul attn_weights values) ;;
  ret context_vec.

(** ** The attention formula, entry by entry

    The quantities of the formula [softmax(M(Q K^T) / sqrt(d_k)) V],
    written on indices as the specification states them. *)

(** Entry [o] of the projection of token [i] of batch element [b]. *)
Definition proj (l : Linear) (x : tensor3 R) (b i o : nat) : R :=
  sum_upto (in_features l) (fun a => get3 0 x b i a * weight_at l o a)
  + bias_at l o.

(** [Q K^T] at [(i, j)]: the dot product of query [i] and key [j]. *)
Definition qk (self : CausalAttention) (x : tensor3 R) (b i j : nat) : R :=
  sum_upto (d_out self)
    (fun a => proj (W_query self) x b i a * proj (W_key self) x b j a).

(** The causal mask [M]: a score at a strictly future position, [j > i],
    becomes [-inf]. *)
Definition causal (i j : nat) (s : R) : xreal :=
  if (i <? j)%nat then NegInf else Fin s.

Definition scaled_score (self : CausalAttention) (x : tensor3 R) (b i j : nat) : xreal :=
  xdiv (causal i j (qk self x b i j)) (sqrt (INR (d_out self))).

Definition softmax_weight (self : CausalAttention) (x : tensor3 R) (b i j : nat) : R :=
  xexp (scaled_score self x b i j)
  / sum_upto (dim1 x) (fun k => xexp (scaled_score self x b i k)).

Definition attention_formula (self : CausalAttention) (x : tensor3 R) : tensor3 R :=
  build3 (dim0 x) (dim1 x) (d_out self)
    (fun b i c =>
       sum_upto (dim1 x)
         (fun j => softmax_weight self x b i j * proj (W_value self) x b j c)).

(** Two copies of one sequence stacked into a batch, as
    [torch.stack((inputs, inputs), dim=0)] does. *)
Definition stack2 (n d : nat) (s : list (list R)) : tensor3 R := T3 2 n d [s; s].


(** The shape invariant that [__init__] establishes for a module with
    input width [d_in] and context length [L]. *)
Record module_shape (d_in L : nat) (m : CausalAttention) : Prop := {
  shape_query_in : in_features (W_query m) = d_in;
  shape_key_in : in_features (W_key m) = d_in;
  shape_value_in : in_features (W_value m) = d_in;
  shape_query_out : out_features (W_query m) = d_out m;
  shape_key_out : out_features (W_key m) = d_out m;
  shape_value_out : out_features (W_value m) = d_out m;
  shape_mask : mask m = triu (ones L L) 1
}.

(** ** Magnitudes that keep the floats finite

    With every entry of the batch, every weight and every bias at most
    [magnitude_limit] in absolute value and both widths at most
    [width_limit], a projection is at most [10^9 + 10^3] and a score at
    most [10^3 * (10^9 + 10^3)^2] in absolute value, far below the largest
    32-bit float: no operation of [forward] overflows on such a call, and
    none meets an infinity other than the [-inf] of the mask.  The proofs
    are carried out in exact arithmetic and make no use of the bounds;
    the bounds delimit the calls on which the stated values, 0, 1 and
    entries passed through unchanged, are also what the float operations
    return. *)
Definition magnitude_limit : R := 1000.

Definition width_limit : nat := 1000.

Definition within_limit (r : R) : Prop := Rabs r <= magnitude_limit.

Definition tensor_within_limit (x : tensor3 R) : Prop :=
  Forall (Forall (Forall within_limit)) (data3 x).

Definition linear_within_limit (l : Linear) : Prop :=
  Forall (Forall within_limit) (weight l) /\
  match bias l with Some b => Forall within_limit b | None => True end.

Definition module_within_limit (m : CausalAttention) : Prop :=
  linear_within_limit (W_query m) /\
  linear_within_limit (W_key m) /\
  linear_within_limit (W_value m).

(** The masked and scaled score that [forward] computes with a mask
    buffer of size [L]; it is [scaled_score] when the sequence fits. *)
Definition run_score (L : nat) (m : CausalAttention) (x : tensor3 R) (b i j : nat) : xreal :=
  xdiv (if (dim1 x <=? L)%nat && (i <? j)%nat then NegInf else Fin (qk m x b i j))
       (sqrt (INR (d_out m))).

Definition run_weight (L : nat) (m : CausalAttention) (x : tensor3 R) (b i j : nat) : R :=
  xexp (run_score L m x b i j)
  / sum_upto (dim1 x) (fun k => xexp (run_score L m x b i k)).

(** The factor dropout applies to entry [(b, i, j)] of an attention-weight
    tensor of shape [(B, n, n)]. *)
Definition dropout_factor (m : CausalAttention) (g : Generator) (n b i j : nat) : R :=
  if Qeq_bool (dropout m) 0 || negb (training m) then 1
  else if Qeq_bool (dropout m) 1 then 0
  else if tape g (offset g + ((b * n + i) * n + j)) then / (1 - Q2R (dropout m))
  else 0.

(** The generator after the dropout of a [(B, n, n)] tensor. *)
Definition generator_after (m : CausalAttention) (g : Generator) (B n : nat) : Generator :=
  if Qeq_bool (dropout m) 0 || negb (training m) then g
  else if Qeq_bool (dropout m) 1 then g
  else advance g (B * n * n).

(** ** The object store

    Tensors and layers are objects, [forward] receives and returns
    references, and [masked_fill_] overwrites the object it is called on. *)

Module Store.

Definition loc : Type := nat.

Inductive object : Type :=
| FloatTensor (t : tensor3 R)       (* float tensor with finite entries *)
| ScoreTensor (t : tensor3 xreal)   (* float tensor that may hold -inf *)
| BufferTensor (t : tensor2 Q)      (* the registered mask buffer *)
| BoolTensor (t : tensor2 bool)
| LinearLayer (l : Linear).         (* the parameters of an nn.Linear *)

Record state : Type := mkState {
  heap : list object;
  rng : Generator
}.

(** A computation returns a value or raises, and leaves a state behind
    in either case. *)
Definition ST (A : Type) : Type := state -> result A * state.

Definition ret {A} (a : A) : ST A := fun s => (Ok a, s).

Definition raise {A} (e : exn) : ST A := fun s => (Raise e, s).

Definition bind {A B} (c : ST A) (k : A -> ST B) : ST B :=
  fun s => match c s with
           | (Ok a, s') => k a s'
           | (Raise e, s') => (Raise e, s')
           end.

Definition lift {A} (r : result A) : ST A := fun s => (r, s).

Declare Scope store_scope.
Notation "x <- c ;; k" := (bind c (fun x => k))
  (at level 61, c at next level, right associativity) : store_scope.
Notation "c ;; k" := (bind c (fun _ => k))
  (at level 61, right associativity) : store_scope.
Local Open Scope store_scope.

(** A new object gets the next free location. *)
Definition alloc (o : object) : ST loc :=
  fun s => (Ok (length (heap s)), mkState (heap s ++ [o]) (rng s)).

Definition load (l : loc) : ST object :=
  fun s => match nth_error (heap s) l with
           | Some o => (Ok o, s)
           | None => (Raise TypeError, s)
           end.

Fixpoint update (l : loc) (o : object) (h : list object) : list object :=
  match h, l with
  | [], _ => []
  | _ :: h', O => o :: h'
  | o' :: h', S l' => o' :: update l' o h'
  end.

(** Overwriting in place: the object at [l] is replaced. *)
Definition overwrite (l : loc) (o : object) : ST unit :=
  fun s => (Ok tt, mkState (update l o (heap s)) (rng s)).

(** A computation on the random generator alone. *)
Definition draw {A} (c : M A) : ST A :=
  fun s => match c (rng s) with
           | Ok (a, g') => (Ok a, mkState (heap s) g')
           | Raise e => (Raise e, s)
           end.

Definition load_float (l : loc) : ST (tensor3 R) :=
  o <- load l ;;
  match o with FloatTensor t => ret t | _ => raise TypeError end.

Definition load_linear (l : loc) : ST Linear :=
  o <- load l ;;
  match o with LinearLayer w => ret w | _ => raise TypeError end.

Definition load_buffer (l : loc) : ST (tensor2 Q) :=
  o <- load l ;;
  match o with BufferTensor t => ret t | _ => raise TypeError end.

Definition load_bool (l : loc) : ST (tensor2 bool) :=
  o <- load l ;;
  match o with BoolTensor t => ret t | _ => raise TypeError end.

Definition load_score (l : loc) : ST (tensor3 xreal) :=
  o <- load l ;;
  match o with ScoreTensor t => ret t | _ => raise TypeError end.

(** The module object: its layers and its buffer are references. *)
Record module : Type := mkModule {
  self_d_out : nat;
  self_W_query : loc;
  self_W_key : loc;
  self_W_value : loc;
  self_dropout : Q;
  self_mask : loc;
  self_training : bool
}.

(** [layer(x)] *)
Definition call_linear (layer x : loc) : ST loc :=
  l <- load_linear layer ;;
  t <- load_float x ;;
  y <- lift (Linear_forward l t) ;;
  alloc (FloatTensor y).

(** [t.transpose(1, 2)] *)
Definition transpose (t : loc) : ST loc :=
  a <- load_float t ;;
  alloc (FloatTensor (transpose12 a)).

(** [a @ b] *)
Definition matmul (a b : loc) : ST loc :=
  ta <- load_float a ;;
  tb <- load_float b ;;
  c <- lift (matmul ta tb) ;;
  alloc (FloatTensor c).

(** [buffer.bool()] *)
Definition to_bool (buffer : loc) : ST loc :=
  t <- load_buffer buffer ;;
  alloc (BoolTensor (to_bool t)).

(** [m[:r, :c]] *)
Definition slice (m : loc) (r c : nat) : ST loc :=
  t <- load_bool m ;;
  alloc (BoolTensor (slice2 false t r c)).

(** [t.masked_fill_(m, value)]: no new object, [t] itself is changed. *)
Definition masked_fill_ (t m : loc) (value : xreal) : ST unit :=
  a <- load_float t ;;
  k <- load_bool m ;;
  r <- lift (masked_fill_ a k value) ;;
  overwrite t (ScoreTensor r).

(** [t / c] *)
Definition div (t : loc) (c : R) : ST loc :=
  a <- load_score t ;;
  alloc (ScoreTensor (div_scalar a c)).

(** [torch.softmax(t, dim=-1)] *)
Definition softmax (t : loc) : ST loc :=
  a <- load_score t ;;
  alloc (FloatTensor (softmax a)).

(** [self.dropout(t)]: the input object itself is returned when dropout
    does nothing, a new object otherwise. *)
Definition call_dropout (p : Q) (training : bool) (t : loc) : ST loc :=
  a <- load_float t ;;
  if Qeq_bool p 0 || negb training then ret t
  else
    r <- draw (Dropout_forward p training a) ;;
    alloc (FloatTensor r).

(** [CausalAttention.forward] on references. *)
Definition forward (self : module) (x : loc) : ST loc :=
  xt <- load_float x ;;
  let num_tokens := dim1 xt in
  keys <- call_linear (self_W_key self) x ;;
  queries <- call_linear (self_W_query self) x ;;
  values <- call_linear (self_W_value self) x ;;
  keys_t <- transpose keys ;;
  attn_scores <- matmul queries keys_t ;;
  mask_bool <- to_bool (self_mask self) ;;
  mask_slice <- slice mask_bool num_tokens num_tokens ;;
  masked_fill_ attn_scores mask_slice NegInf ;;
  kt <- load_float keys ;;
  scaled <- div attn_scores (sqrt (INR (dim2 kt))) ;;
  attn_weights <- softmax scaled ;;
  attn_weights <- call_dropout (self_dropout self) (self_training self) attn_weights ;;
  context_vec <- matmul attn_weights values ;;
  ret context_vec.

(** The store holds the module [m] behind the references of [self]. *)
Record holds (h : list object) (self : module) (m : CausalAttention) : Prop := {
  holds_d_out : self_d_out self = d_out m;
  holds_query : nth_error h (self_W_query self) = Some (LinearLayer (W_query m));
  holds_key : nth_error h (self_W_key self) = Some (LinearLayer (W_key m));
  holds_value : nth_error h (self_W_value self) = Some (LinearLayer (W_value m));
  holds_dropout : self_dropout self = dropout m;
  holds_mask : nth_error h (self_mask self) = Some (BufferTensor (mask m));
  holds_training : self_training self = training m
}.

End Store.

(** ** Concrete modules and inputs *)

(** The notebook's six embedded tokens and its batch of two copies. *)
Definition inputs : list (list R) :=
  [ [0.43; 0.15; 0.89];
    [0.55; 0.87; 0.66];
    [0.57; 0.85; 0.64];
    [0.22; 0.58; 0.33];
    [0.77; 0.25; 0.10];
    [0.05; 0.80; 0.55] ].

Definition batch : tensor3 R := stack2 6 3 inputs.

(** Some projections from width 3 to width 2. *)
Definition qkv_3_2 : qkv_values :=
  mkQKV [[1; 0; 2]; [0; 1; 1]] [0; 0]
        [[1; 1; 0]; [2; 0; 1]] [0; 0]
        [[0; 1; 0]; [1; 0; 1]] [0; 0].

(** The notebook's module, [CausalAttention(3, 2, 6, 0.0)], on these
    projections. *)
Definition ca : CausalAttention :=
  mkCA 2
    (Linear_init 3 2 false (query_w qkv_3_2) (query_b qkv_3_2))
    (Linear_init 3 2 false (key_w qkv_3_2) (key_b qkv_3_2))
    (Linear_init 3 2 false (value_w qkv_3_2) (value_b qkv_3_2))
    0 (triu (ones 6 6) 1) true.

(** Width-1 projections that copy their input. *)
Definition qkv_1_1 : qkv_values := mkQKV [[1]] [0] [[1]] [0] [[1]] [0].

(** [CausalAttention(1, 1, L, p)] on the copying projections. *)
Definition copying (L : nat) (p : Q) : CausalAttention :=
  mkCA 1
    (Linear_init 1 1 false (query_w qkv_1_1) (query_b qkv_1_1))
    (Linear_init 1 1 false (key_w qkv_1_1) (key_b qkv_1_1))
    (Linear_init 1 1 false (value_w qkv_1_1) (value_b qkv_1_1))
    p (triu (ones L L) 1) true.

Definition one_token : tensor3 R := T3 1 1 1 [[[1]]].

Definition two_tokens : tensor3 R := T3 1 2 1 [[[1]; [1]]].

(** The same batch with its second token replaced. *)
Definition two_tokens_changed : tensor3 R := T3 1 2 1 [[[1]; [0]]].

(** A batch of two sequences without tokens. *)
Definition no_tokens : tensor3 R := T3 2 0 1 [[]; []].

(** A generator whose draws all say drop, and one that keeps the first
    draw only. *)
Definition drops_all : Generator := mkGen (fun _ => false) 0.

Definition keeps_first : Generator := mkGen (fun k => (k =? 0)%nat) 0.

(** The notebook's tokens with every token after the first replaced. *)
Definition inputs_changed : list (list R) :=
  [ [0.43; 0.15; 0.89];
    [1; 2; 3];
    [4; 5; 6];
    [7; 8; 9];
    [0; 0; 0];
    [1; 1; 1] ].

Definition batch_changed : tensor3 R := stack2 6 3 inputs_changed.

(** A batch holding the changed tokens first and the notebook's tokens
    second. *)
Definition batch_mixed : tensor3 R := T3 2 6 3 [inputs_changed; inputs].


(** What a run of [Store.forward] from the store [h] and the generator [g]
    must satisfy: the objects of [h] are intact, the generator is untouched
    when dropout is off, and the outcome is that of the function [forward]:
    the same exception, or a reference to a new object holding the same
    tensor, with the same generator state. *)
Definition framed (h : list Store.object) (g : Generator) (off : bool)
    (v : result (tensor3 R * Generator))
    (rs : result Store.loc * Store.state) : Prop :=
  (forall l, (l < length h)%nat -> nth_error (Store.heap (snd rs)) l = nth_error h l) /\
  (off = true -> Store.rng (snd rs) = g) /\
  match fst rs, v with
  | Ok lout, Ok (out, g') =>
      (length h <= lout)%nat /\
      nth_error (Store.heap (snd rs)) lout = Some (Store.FloatTensor out) /\
      Store.rng (snd rs) = g'
  | Raise e, Raise e' => e = e'
  | _, _ => False
  end.

(** A store holding a one-token batch and the module [copying 1 p]. *)
Definition small_store (p : Q) : list Store.object :=
  [ Store.FloatTensor one_token;
    Store.LinearLayer (W_query (copying 1 p));
    Store.LinearLayer (W_key (copying 1 p));
    Store.LinearLayer (W_value (copying 1 p));
    Store.BufferTensor (mask (copying 1 p)) ].

Definition small_self (p : Q) : Store.module :=
  Store.mkModule 1%nat 1%nat 2%nat 3%nat p 4%nat true.
(** ** Lemmas on tabulated lists and sums *)

Section Tabulate.
Context {A : Type}.

Lemma tab_length (n : nat) (f : nat -> A) : length (tab n f) = n.
Proof. unfold tab. now rewrite length_map, length_seq. Qed.

Lemma nth_tab (n : nat) (f : nat -> A) (d : A) (i : nat) :
  (i < n)%nat -> nth i (tab n f) d = f i.
Proof.
  intros Hi. unfold tab.
  rewrite (nth_indep _ d (f 0%nat)) by now rewrite length_map, length_seq.
  rewrite map_nth, seq_nth by exact Hi. reflexivity.
Qed.

Lemma tab_ext (n : nat) (f g : nat -> A) :
  (forall i, (i < n)%nat -> f i = g i) -> tab n f = tab n g.
Proof.
  intros H. unfold tab. apply map_ext_in.
  intros i Hi. apply in_seq in Hi. apply H. lia.
Qed.

Lemma tab_S (n : nat) (f : nat -> A) : tab (S n) f = tab n f ++ [f n].
Proof. unfold tab. now rewrite seq_S, map_app. Qed.
End Tabulate.

Lemma get2_build2 {A} (d : A) (r c : nat) (f : nat -> nat -> A) (i j : nat) :
  (i < r)%nat -> (j < c)%nat -> get2 d (build2 r c f) i j = f i j.
Proof.
  intros Hi Hj. unfold get2, build2. cbn [data2].
  rewrite (nth_tab _ _ Hi), (nth_tab _ _ Hj). reflexivity.
Qed.

Lemma get3_build3 {A} (d : A) (B N D : nat) (f : nat -> nat -> nat -> A) (b i j : nat) :
  (b < B)%nat -> (i < N)%nat -> (j < D)%nat ->
  get3 d (build3 B N D f) b i j = f b i j.
Proof.
  intros Hb Hi Hj. unfold get3, build3. cbn [data3].
  rewrite (nth_tab _ _ Hb), (nth_tab _ _ Hi), (nth_tab _ _ Hj). reflexivity.
Qed.

Lemma build2_ext {A} (r c : nat) (f g : nat -> nat -> A) :
  (forall i j, (i < r)%nat -> (j < c)%nat -> f i j = g i j) ->
  build2 r c f = build2 r c g.
Proof.
  intros H. unfold build2. f_equal.
  apply tab_ext; intros i Hi. apply tab_ext; intros j Hj. now apply H.
Qed.

Lemma build3_ext {A} (B N D : nat) (f g : nat -> nat -> nat -> A) :
  (forall b i j, (b < B)%nat -> (i < N)%nat -> (j < D)%nat -> f b i j = g b i j) ->
  build3 B N D f = build3 B N D g.
Proof.
  intros H. unfold build3. f_equal.
  apply tab_ext; intros b Hb. apply tab_ext; intros i Hi.
  apply tab_ext; intros j Hj. now apply H.
Qed.

Lemma row3_build3 {A} (B N D : nat) (f : nat -> nat -> nat -> A) (b i : nat) :
  (b < B)%nat -> (i < N)%nat -> row3 (build3 B N D f) b i = tab D (f b i).
Proof.
  intros Hb Hi. unfold row3, build3. cbn [data3].
  now rewrite (nth_tab _ _ Hb), (nth_tab _ _ Hi).
Qed.

Lemma sum_upto_ext (n : nat) (f g : nat -> R) :
  (forall i, (i < n)%nat -> f i = g i) -> sum_upto n f = sum_upto n g.
Proof. intros H. unfold sum_upto. now rewrite (tab_ext _ _ H). Qed.

Lemma sum_upto_0 (f : nat -> R) : sum_upto 0 f = 0.
Proof. reflexivity. Qed.

Lemma sum_upto_S (n : nat) (f : nat -> R) :
  sum_upto (S n) f = sum_upto n f + f n.
Proof.
  unfold sum_upto. rewrite tab_S.
  induction (tab n f) as [|a l IH]; cbn [app fold_right]; [lra|].
  rewrite IH. lra.
Qed.

Lemma sum_upto_zero (n : nat) (f : nat -> R) :
  (forall i, (i < n)%nat -> f i = 0) -> sum_upto n f = 0.
Proof.
  induction n as [|n IH]; intros H; [reflexivity|].
  rewrite sum_upto_S, IH, H by auto with arith. lra.
Qed.

Lemma sum_upto_single (n i : nat) (f : nat -> R) :
  (i < n)%nat -> (forall j, (j < n)%nat -> j <> i -> f j = 0) ->
  sum_upto n f = f i.
Proof.
  induction n as [|n IH]; intros Hi H; [lia|].
  rewrite sum_upto_S.
  destruct (Nat.eq_dec i n) as [-> |Hne].
  - rewrite sum_upto_zero; [lra|]. intros j Hj. apply H; lia.
  - rewrite IH, (H n) by (try intros j Hj Hji; try apply H; lia). lra.
Qed.

(** ** The causal mask *)

Lemma causal_mask_slice (L n : nat) :
  slice2 false (to_bool (triu (ones L L) 1)) n n
  = build2 (Nat.min n L) (Nat.min n L) (fun i j => (i <? j)%nat).
Proof.
  unfold slice2, to_bool, triu, ones. cbn [rows cols build2].
  apply build2_ext. intros i j Hi Hj.
  rewrite !get2_build2 by lia.
  destruct (Z.leb_spec 1 (Z.of_nat j - Z.of_nat i)) as [H|H];
    destruct (Nat.ltb_spec i j) as [H'|H']; try lia; reflexivity.
Qed.

Lemma bcast_id (m i : nat) : (i < m)%nat -> bcast m i = i.
Proof.
  intros Hi. unfold bcast. destruct (Nat.eqb_spec m 1); [lia | reflexivity].
Qed.

Lemma init_inv (d_in d_o L : nat) (p : Q) (qb : bool) (th : qkv_values)
    (m : CausalAttention) :
  init d_in d_o L p qb th = Ok m ->
  Qle_bool 0 p && Qle_bool p 1 = true /\
  m = mkCA d_o
        (Linear_init d_in d_o qb (query_w th) (query_b th))
        (Linear_init d_in d_o qb (key_w th) (key_b th))
        (Linear_init d_in d_o qb (value_w th) (value_b th))
        p (triu (ones L L) 1) true.
Proof.
  unfold init. destruct (Qle_bool 0 p && Qle_bool p 1); [|discriminate].
  intros H. injection H as <-. split; reflexivity.
Qed.

(** What the sliced mask says at [(i, j)] of an [n x n] score matrix:
    the upper triangle when the slice has the full size, nothing when a
    [1 x 1] slice is broadcast. *)
Lemma mask_read (L n i j : nat) :
  (i < n)%nat -> (j < n)%nat -> (n <= L)%nat \/ L = 1%nat ->
  let mk := slice2 false (to_bool (triu (ones L L) 1)) n n in
  get2 false mk (bcast (rows mk) i) (bcast (cols mk) j)
  = (n <=? L)%nat && (i <? j)%nat.
Proof.
  intros Hi Hj HL mk. subst mk. rewrite causal_mask_slice. cbn [rows cols build2].
  destruct (Nat.leb_spec n L) as [Hle|Hgt].
  - rewrite Nat.min_l by exact Hle. rewrite !bcast_id by assumption.
    rewrite get2_build2 by assumption. reflexivity.
  - destruct HL as [HL| ->]; [lia|].
    rewrite Nat.min_r by lia. unfold bcast. cbn [Nat.eqb].
    rewrite get2_build2 by lia. reflexivity.
Qed.

Lemma mask_broadcastable (L n : nat) :
  broadcastable (Nat.min n L) n = (n <=? L)%nat || (L =? 1)%nat.
Proof.
  unfold broadcastable.
  destruct (Nat.leb_spec n L) as [Hle|Hgt].
  - rewrite Nat.min_l, Nat.eqb_refl by exact Hle. reflexivity.
  - rewrite Nat.min_r by lia.
    destruct (Nat.eqb_spec L n); [lia | reflexivity].
Qed.

(** ** The run of [forward] in closed form *)

Lemma init_shape (d_in d_o L : nat) (p : Q) (qb : bool) (th : qkv_values)
    (m : CausalAttention) :
  init d_in d_o L p qb th = Ok m ->
  module_shape d_in L m /\ d_out m = d_o /\ dropout m = p /\ training m = true.
Proof.
  intros Hm. apply init_inv in Hm as [_ ->]. repeat split.
Qed.

Lemma Linear_forward_ok (l : Linear) (x : tensor3 R) :
  dim2 x = in_features l ->
  Linear_forward l x = Ok (build3 (dim0 x) (dim1 x) (out_features l) (proj l x)).
Proof.
  intros H. unfold Linear_forward. rewrite H, Nat.eqb_refl. reflexivity.
Qed.

Lemma Linear_forward_raise (l : Linear) (x : tensor3 R) :
  dim2 x <> in_features l -> Linear_forward l x = Raise RuntimeError.
Proof.
  intros H. unfold Linear_forward.
  destruct (Nat.eqb_spec (dim2 x) (in_features l)); [contradiction | reflexivity].
Qed.

Lemma softmax_div_scalar (t : tensor3 xreal) (c : R) :
  softmax (div_scalar t c)
  = build3 (dim0 t) (dim1 t) (dim2 t)
      (fun b i j =>
         xexp (xdiv (get3 NegInf t b i j) c)
         / sum_upto (dim2 t) (fun k => xexp (xdiv (get3 NegInf t b i k) c))).
Proof.
  unfold softmax, div_scalar. cbn [dim0 dim1 dim2 build3].
  apply build3_ext. intros b i j Hb Hi Hj.
  rewrite get3_build3 by assumption. f_equal.
  apply sum_upto_ext. intros k Hk. now rewrite get3_build3.
Qed.

(** The scores [queries @ keys.transpose(1, 2)] are the dot products [qk]. *)
Lemma matmul_transpose_scores (m : CausalAttention) (x : tensor3 R) (b i j : nat) :
  (b < dim0 x)%nat -> (i < dim1 x)%nat -> (j < dim1 x)%nat ->
  sum_upto (d_out m)
    (fun k =>
       get3 0 (build3 (dim0 x) (dim1 x) (d_out m) (proj (W_query m) x)) b i k
       * get3 0 (transpose12 (build3 (dim0 x) (dim1 x) (d_out m) (proj (W_key m) x)))
           b k j)
  = qk m x b i j.
Proof.
  intros Hb Hi Hj. unfold qk, transpose12. cbn [dim0 dim1 dim2 build3].
  apply sum_upto_ext. intros k Hk.
  now repeat (rewrite get3_build3 by assumption).
Qed.

Lemma attention_weights_run (d_in L : nat) (m : CausalAttention) (x : tensor3 R) :
  module_shape d_in L m ->
  attention_weights m x =
    if (dim2 x =? d_in)%nat && ((dim1 x <=? L)%nat || (L =? 1)%nat) then
      Ok (build3 (dim0 x) (dim1 x) (dim1 x) (run_weight L m x),
          build3 (dim0 x) (dim1 x) (d_out m) (proj (W_value m) x))
    else Raise RuntimeError.
Proof.
  intros [Hqi Hki Hvi Hqo Hko Hvo Hmask].
  unfold attention_weights.
  destruct (Nat.eqb_spec (dim2 x) d_in) as [Hd|Hd].
  2:{ rewrite Linear_forward_raise by congruence. reflexivity. }
  rewrite !Linear_forward_ok by congruence.
  rewrite Hqo, Hko, Hvo. cbn [andb and_then].
  unfold matmul. cbn [dim0 dim1 dim2 build3 transpose12].
  rewrite !Nat.eqb_refl. cbn [andb and_then].
  unfold masked_fill_. rewrite Hmask, causal_mask_slice.
  cbn [rows cols build2 dim0 dim1 dim2 build3].
  rewrite mask_broadcastable, andb_diag.
  destruct ((dim1 x <=? L)%nat || (L =? 1)%nat) eqn:HL; [|reflexivity].
  cbn [and_then]. do 2 f_equal.
  match goal with |- softmax (div_scalar ?t _) = _ => set (T := t) end.
  assert (Hscore : forall b i j,
             (b < dim0 x)%nat -> (i < dim1 x)%nat -> (j < dim1 x)%nat ->
             xdiv (get3 NegInf T b i j) (sqrt (INR (d_out m))) = run_score L m x b i j).
  { intros b i j Hb Hi Hj. subst T. rewrite get3_build3 by assumption.
    pose proof (@mask_read L (dim1 x) i j Hi Hj) as Hread.
    rewrite causal_mask_slice in Hread. cbn [rows cols build2] in Hread.
    rewrite Hread.
    2:{ apply orb_true_iff in HL as [HL|HL];
          [left; now apply Nat.leb_le | right; now apply Nat.eqb_eq]. }
    rewrite get3_build3 by assumption.
    fold (transpose12 (build3 (dim0 x) (dim1 x) (d_out m) (proj (W_key m) x))).
    rewrite matmul_transpose_scores by assumption. reflexivity. }
  rewrite softmax_div_scalar.
  change (dim0 T) with (dim0 x). change (dim1 T) with (dim1 x).
  change (dim2 T) with (dim1 x).
  apply build3_ext. intros b i j Hb Hi Hj. unfold run_weight.
  rewrite Hscore by assumption. f_equal.
  apply sum_upto_ext. intros k Hk. now rewrite Hscore.
Qed.

Lemma forward_run (d_in L : nat) (m : CausalAttention) (x : tensor3 R) (g : Generator) :
  module_shape d_in L m ->
  forward m x g =
    if (dim2 x =? d_in)%nat && ((dim1 x <=? L)%nat || (L =? 1)%nat) then
      Ok (build3 (dim0 x) (dim1 x) (d_out m)
            (fun b i c =>
               sum_upto (dim1 x)
                 (fun j => run_weight L m x b i j
                           * dropout_factor m g (dim1 x) b i j
                           * proj (W_value m) x b j c)),
          generator_after m g (dim0 x) (dim1 x))
    else Raise RuntimeError.
Proof.
  intros Hm. unfold forward, bind, lift.
  rewrite (attention_weights_run x Hm).
  destruct ((dim2 x =? d_in)%nat && ((dim1 x <=? L)%nat || (L =? 1)%nat));
    [|reflexivity].
  unfold Dropout_forward, generator_after, dropout_factor, ret.
  destruct (Qeq_bool (dropout m) 0 || negb (training m)); [|destruct (Qeq_bool (dropout m) 1)];
    unfold matmul; cbn [dim0 dim1 dim2 build3]; rewrite !Nat.eqb_refl;
    cbn [andb]; do 2 f_equal; apply build3_ext; intros b i c Hb Hi Hc;
    apply sum_upto_ext; intros j Hj;
    repeat (rewrite get3_build3 by assumption);
    unfold flat_index; cbn [dim1 dim2 build3]; ring.
Qed.


(** Entries, weights and batches within the magnitude limit. *)
Ltac within_limits :=
  unfold module_within_limit, linear_within_limit, tensor_within_limit;
  cbn;
  repeat match goal with
         | |- _ /\ _ => split
         | |- True => exact I
         | |- Forall _ _ => constructor
         | |- within_limit _ =>
             unfold within_limit, magnitude_limit; apply Rabs_le; lra
         end.

(** ** Properties of the softmax weights *)

Lemma run_score_fits (L : nat) (m : CausalAttention) (x : tensor3 R) (b i j : nat) :
  (dim1 x <= L)%nat -> run_score L m x b i j = scaled_score m x b i j.
Proof.
  intros HL. unfold run_score, scaled_score, causal.
  apply Nat.leb_le in HL. rewrite HL. reflexivity.
Qed.

Lemma run_weight_fits (L : nat) (m : CausalAttention) (x : tensor3 R) (b i j : nat) :
  (dim1 x <= L)%nat -> run_weight L m x b i j = softmax_weight m x b i j.
Proof.
  intros HL. unfold run_weight, softmax_weight.
  rewrite run_score_fits by exact HL. f_equal.
  apply sum_upto_ext. intros k _. now rewrite run_score_fits.
Qed.

Lemma xexp_future (m : CausalAttention) (x : tensor3 R) (b i j : nat) :
  (i < j)%nat -> xexp (scaled_score m x b i j) = 0.
Proof.
  intros Hij. unfold scaled_score, causal.
  apply Nat.ltb_lt in Hij. rewrite Hij. reflexivity.
Qed.

Lemma xexp_past (m : CausalAttention) (x : tensor3 R) (b i j : nat) :
  (j <= i)%nat -> 0 < xexp (scaled_score m x b i j).
Proof.
  intros Hji. unfold scaled_score, causal.
  destruct (Nat.ltb_spec i j); [lia|]. cbn. apply exp_pos.
Qed.

Lemma softmax_weight_future (m : CausalAttention) (x : tensor3 R) (b i j : nat) :
  (i < j)%nat -> softmax_weight m x b i j = 0.
Proof.
  intros Hij. unfold softmax_weight. rewrite xexp_future by exact Hij.
  unfold Rdiv. apply Rmult_0_l.
Qed.

(** In the first row only the diagonal entry is not masked. *)
Lemma softmax_weight_first_row (m : CausalAttention) (x : tensor3 R) (b j : nat) :
  (0 < dim1 x)%nat ->
  softmax_weight m x b 0 j = if (j =? 0)%nat then 1 else 0.
Proof.
  intros Hn. destruct (Nat.eqb_spec j 0) as [-> |Hj].
  - unfold softmax_weight.
    rewrite (sum_upto_single (i := 0%nat)); [| exact Hn |].
    + apply Rdiv_diag. pose proof (@xexp_past m x b 0%nat 0%nat (le_n 0)). lra.
    + intros k _ Hk. apply xexp_future. lia.
  - apply softmax_weight_future. lia.
Qed.

Lemma dropout_factor_off (m : CausalAttention) (g : Generator) (n b i j : nat) :
  (dropout m == 0)%Q -> dropout_factor m g n b i j = 1.
Proof.
  intros Hp. unfold dropout_factor.
  apply Qeq_bool_iff in Hp. rewrite Hp. reflexivity.
Qed.

Lemma generator_after_off (m : CausalAttention) (g : Generator) (B n : nat) :
  (dropout m == 0)%Q -> generator_after m g B n = g.
Proof.
  intros Hp. unfold generator_after.
  apply Qeq_bool_iff in Hp. rewrite Hp. reflexivity.
Qed.

(** [forward] without dropout on a batch that fits. *)
Lemma forward_run_off (d_in L : nat) (m : CausalAttention) (x : tensor3 R)
    (g : Generator) :
  module_shape d_in L m -> (dropout m == 0)%Q ->
  dim2 x = d_in -> (dim1 x <= L)%nat ->
  forward m x g = Ok (attention_formula m x, g).
Proof.
  intros Hm Hp Hd HL. rewrite (forward_run x g Hm).
  apply Nat.eqb_eq in Hd. apply Nat.leb_le in HL as HL'. rewrite Hd, HL'.
  cbn [andb orb]. rewrite generator_after_off by exact Hp.
  do 2 f_equal. unfold attention_formula.
  apply build3_ext. intros b i c Hb Hi Hc.
  apply sum_upto_ext. intros j Hj.
  rewrite dropout_factor_off by exact Hp.
  rewrite run_weight_fits by exact HL. ring.
Qed.

(** ** The concrete modules *)

Lemma copying_shape (L : nat) (p : Q) : module_shape 1 L (copying L p).
Proof. split; reflexivity. Qed.

Lemma copying_init (L : nat) (p : Q) :
  Qle_bool 0 p && Qle_bool p 1 = true ->
  init 1 1 L p false qkv_1_1 = Ok (copying L p).
Proof. intros H. unfold init. rewrite H. reflexivity. Qed.

Lemma attention_weights_fits (d_in L : nat) (m : CausalAttention) (x : tensor3 R) :
  module_shape d_in L m -> dim2 x = d_in -> (dim1 x <= L)%nat ->
  attention_weights m x
  = Ok (build3 (dim0 x) (dim1 x) (dim1 x) (softmax_weight m x),
        build3 (dim0 x) (dim1 x) (d_out m) (proj (W_value m) x)).
Proof.
  intros Hm Hd HL. rewrite (attention_weights_run x Hm).
  apply Nat.eqb_eq in Hd. apply Nat.leb_le in HL as HL'. rewrite Hd, HL'.
  cbn [andb orb]. do 2 f_equal.
  apply build3_ext. intros b i j _ _ _. now apply run_weight_fits.
Qed.

Lemma value_projection (d_in L : nat) (m : CausalAttention) (x : tensor3 R) :
  module_shape d_in L m -> dim2 x = d_in ->
  Linear_forward (W_value m) x
  = Ok (build3 (dim0 x) (dim1 x) (d_out m) (proj (W_value m) x)).
Proof.
  intros Hm Hd. rewrite Linear_forward_ok.
  - now rewrite (shape_value_out Hm).
  - now rewrite (shape_value_in Hm).
Qed.

(** The context vector at position 0 without dropout. *)
Lemma attention_formula_first_row (m : CausalAttention) (x : tensor3 R) (b : nat) :
  (b < dim0 x)%nat -> (0 < dim1 x)%nat ->
  row3 (attention_formula m x) b 0
  = row3 (build3 (dim0 x) (dim1 x) (d_out m) (proj (W_value m) x)) b 0.
Proof.
  intros Hb Hn. unfold attention_formula.
  rewrite !row3_build3 by assumption.
  apply tab_ext. intros c Hc.
  rewrite (sum_upto_single (i := 0%nat)); [| exact Hn |].
  - rewrite softmax_weight_first_row by exact Hn. cbn [Nat.eqb]. ring.
  - intros j Hj Hj0. rewrite softmax_weight_first_row by exact Hn.
    destruct (Nat.eqb_spec j 0); [contradiction | ring].
Qed.

(** ** Dependence of the formula on the input *)

(** Token [t] of batch element [b] of [x] and of batch element [b'] of [x']
    are the same vector of width [d]. *)
Lemma proj_agree (l : Linear) (x x' : tensor3 R) (b b' t o : nat) :
  (forall a, (a < in_features l)%nat -> get3 0 x b t a = get3 0 x' b' t a) ->
  proj l x b t o = proj l x' b' t o.
Proof.
  intros H. unfold proj. f_equal.
  apply sum_upto_ext. intros a Ha. now rewrite H.
Qed.

Lemma qk_agree (m : CausalAttention) (x x' : tensor3 R) (b b' i j : nat) :
  (forall a, (a < in_features (W_query m))%nat -> get3 0 x b i a = get3 0 x' b' i a) ->
  (forall a, (a < in_features (W_key m))%nat -> get3 0 x b j a = get3 0 x' b' j a) ->
  qk m x b i j = qk m x' b' i j.
Proof.
  intros Hi Hj. unfold qk. apply sum_upto_ext. intros a _.
  now rewrite (proj_agree _ x x' b b' i a Hi), (proj_agree _ x x' b b' j a Hj).
Qed.

Section Prefix.
  Variables (d_in L : nat) (m : CausalAttention) (x x' : tensor3 R) (b b' i : nat).
  Hypothesis Hm : module_shape d_in L m.
  Hypothesis Hn : dim1 x = dim1 x'.
  Hypothesis Hprefix : forall t a, (t <= i)%nat -> (a < d_in)%nat ->
    get3 0 x b t a = get3 0 x' b' t a.

Lemma xexp_score_agree (j : nat) :
  xexp (scaled_score m x b i j) = xexp (scaled_score m x' b' i j).
Proof.
  destruct (Nat.lt_ge_cases i j) as [Hij|Hji].
  - now rewrite !xexp_future.
  - unfold scaled_score, causal. destruct (Nat.ltb_spec i j); [lia|].
    rewrite (@qk_agree m x x' b b' i j); [reflexivity | |].
    + intros a Ha. apply Hprefix; [lia|]. now rewrite <- (shape_query_in Hm).
    + intros a Ha. apply Hprefix; [lia|]. now rewrite <- (shape_key_in Hm).
Qed.

Lemma softmax_weight_agree (j : nat) :
  softmax_weight m x b i j = softmax_weight m x' b' i j.
Proof.
  unfold softmax_weight. rewrite xexp_score_agree, <- Hn. f_equal.
  apply sum_upto_ext. intros k _. apply xexp_score_agree.
Qed.

(** Entry [c] of the context vector at position [i], under any dropout
    outcome that is the same on both sides. *)
Lemma context_agree (f : nat -> R) (c : nat) :
  sum_upto (dim1 x)
    (fun j => softmax_weight m x b i j * f j * proj (W_value m) x b j c)
  = sum_upto (dim1 x)
      (fun j => softmax_weight m x' b' i j * f j * proj (W_value m) x' b' j c).
Proof.
  apply sum_upto_ext. intros j Hj.
  rewrite softmax_weight_agree.
  destruct (Nat.lt_ge_cases i j) as [Hij|Hji].
  - rewrite softmax_weight_future by exact Hij. ring.
  - rewrite (@proj_agree (W_value m) x x' b b' j c); [reflexivity|].
    intros a Ha. apply Hprefix; [lia|]. now rewrite <- (shape_value_in Hm).
Qed.

Lemma formula_agree (c : nat) :
  sum_upto (dim1 x)
    (fun j => softmax_weight m x b i j * proj (W_value m) x b j c)
  = sum_upto (dim1 x)
      (fun j => softmax_weight m x' b' i j * proj (W_value m) x' b' j c).
Proof.
  pose proof (context_agree (fun _ => 1) c) as H.
  etransitivity; [|etransitivity; [exact H|]];
    apply sum_upto_ext; intros j _; ring.
Qed.

End Prefix.

(** ** The object store *)

Lemma lookup_last (h : list Store.object) (o : Store.object) :
  nth_error (h ++ [o]) (length h) = Some o.
Proof. rewrite nth_error_app2, Nat.sub_diag by lia. reflexivity. Qed.

Lemma lookup_app_old (h e : list Store.object) (l : Store.loc) (o : Store.object) :
  nth_error h l = Some o -> nth_error (h ++ e) l = Some o.
Proof.
  intros H. rewrite nth_error_app1; [exact H|].
  apply nth_error_Some. congruence.
Qed.

Lemma update_length (l : Store.loc) (o : Store.object) (h : list Store.object) :
  length (Store.update l o h) = length h.
Proof.
  revert l. induction h as [|a h IH]; intros [|l]; cbn; auto.
Qed.

Lemma update_other (l l' : Store.loc) (o : Store.object) (h : list Store.object) :
  l' <> l -> nth_error (Store.update l o h) l' = nth_error h l'.
Proof.
  revert l l'. induction h as [|a h IH]; intros [|l] [|l'] Hne; cbn; auto.
  - contradiction.
Qed.

Lemma update_same (l : Store.loc) (o : Store.object) (h : list Store.object) :
  (l < length h)%nat -> nth_error (Store.update l o h) l = Some o.
Proof.
  revert l. induction h as [|a h IH]; intros [|l] Hl; cbn in *; try lia; auto.
  apply IH. lia.
Qed.

Lemma load_at (s : Store.state) (l : Store.loc) (o : Store.object) :
  nth_error (Store.heap s) l = Some o -> Store.load l s = (Ok o, s).
Proof. intros H. unfold Store.load. now rewrite H. Qed.

Lemma load_float_at (s : Store.state) (l : Store.loc) (t : tensor3 R) :
  nth_error (Store.heap s) l = Some (Store.FloatTensor t) -> Store.load_float l s = (Ok t, s).
Proof. intros H. unfold Store.load_float, Store.bind. now rewrite (load_at _ _ H). Qed.

Lemma load_linear_at (s : Store.state) (l : Store.loc) (w : Linear) :
  nth_error (Store.heap s) l = Some (Store.LinearLayer w) -> Store.load_linear l s = (Ok w, s).
Proof. intros H. unfold Store.load_linear, Store.bind. now rewrite (load_at _ _ H). Qed.

Lemma load_buffer_at (s : Store.state) (l : Store.loc) (t : tensor2 Q) :
  nth_error (Store.heap s) l = Some (Store.BufferTensor t) -> Store.load_buffer l s = (Ok t, s).
Proof. intros H. unfold Store.load_buffer, Store.bind. now rewrite (load_at _ _ H). Qed.

Lemma load_bool_at (s : Store.state) (l : Store.loc) (t : tensor2 bool) :
  nth_error (Store.heap s) l = Some (Store.BoolTensor t) -> Store.load_bool l s = (Ok t, s).
Proof. intros H. unfold Store.load_bool, Store.bind. now rewrite (load_at _ _ H). Qed.

Lemma load_score_at (s : Store.state) (l : Store.loc) (t : tensor3 xreal) :
  nth_error (Store.heap s) l = Some (Store.ScoreTensor t) -> Store.load_score l s = (Ok t, s).
Proof. intros H. unfold Store.load_score, Store.bind. now rewrite (load_at _ _ H). Qed.

Section Steps.
Variables (h : list Store.object) (g : Generator).

Lemma call_linear_run (layer x : Store.loc) (l : Linear) (t : tensor3 R) :
  nth_error h layer = Some (Store.LinearLayer l) ->
  nth_error h x = Some (Store.FloatTensor t) ->
  Store.call_linear layer x (Store.mkState h g)
  = match Linear_forward l t with
    | Ok y => (Ok (length h), Store.mkState (h ++ [Store.FloatTensor y]) g)
    | Raise e => (Raise e, Store.mkState h g)
    end.
Proof.
  intros Hl Hx. unfold Store.call_linear, Store.bind.
  rewrite (@load_linear_at (Store.mkState h g) _ _ Hl), (@load_float_at (Store.mkState h g) _ _ Hx).
  unfold Store.lift. now destruct (Linear_forward l t).
Qed.

Lemma transpose_run (a : Store.loc) (t : tensor3 R) :
  nth_error h a = Some (Store.FloatTensor t) ->
  Store.transpose a (Store.mkState h g)
  = (Ok (length h), Store.mkState (h ++ [Store.FloatTensor (transpose12 t)]) g).
Proof.
  intros Ha. unfold Store.transpose, Store.bind.
  now rewrite (@load_float_at (Store.mkState h g) _ _ Ha).
Qed.

Lemma matmul_run (a b : Store.loc) (ta tb : tensor3 R) :
  nth_error h a = Some (Store.FloatTensor ta) ->
  nth_error h b = Some (Store.FloatTensor tb) ->
  Store.matmul a b (Store.mkState h g)
  = match matmul ta tb with
    | Ok c => (Ok (length h), Store.mkState (h ++ [Store.FloatTensor c]) g)
    | Raise e => (Raise e, Store.mkState h g)
    end.
Proof.
  intros Ha Hb. unfold Store.matmul, Store.bind.
  rewrite (@load_float_at (Store.mkState h g) _ _ Ha), (@load_float_at (Store.mkState h g) _ _ Hb).
  unfold Store.lift. now destruct (matmul ta tb).
Qed.

Lemma to_bool_run (a : Store.loc) (t : tensor2 Q) :
  nth_error h a = Some (Store.BufferTensor t) ->
  Store.to_bool a (Store.mkState h g)
  = (Ok (length h), Store.mkState (h ++ [Store.BoolTensor (to_bool t)]) g).
Proof.
  intros Ha. unfold Store.to_bool, Store.bind.
  now rewrite (@load_buffer_at (Store.mkState h g) _ _ Ha).
Qed.

Lemma slice_run (a : Store.loc) (t : tensor2 bool) (r c : nat) :
  nth_error h a = Some (Store.BoolTensor t) ->
  Store.slice a r c (Store.mkState h g)
  = (Ok (length h), Store.mkState (h ++ [Store.BoolTensor (slice2 false t r c)]) g).
Proof.
  intros Ha. unfold Store.slice, Store.bind.
  now rewrite (@load_bool_at (Store.mkState h g) _ _ Ha).
Qed.

Lemma masked_fill_run (a k : Store.loc) (t : tensor3 R) (mk : tensor2 bool) (v : xreal) :
  nth_error h a = Some (Store.FloatTensor t) ->
  nth_error h k = Some (Store.BoolTensor mk) ->
  Store.masked_fill_ a k v (Store.mkState h g)
  = match masked_fill_ t mk v with
    | Ok r => (Ok tt, Store.mkState (Store.update a (Store.ScoreTensor r) h) g)
    | Raise e => (Raise e, Store.mkState h g)
    end.
Proof.
  intros Ha Hk. unfold Store.masked_fill_, Store.bind.
  rewrite (@load_float_at (Store.mkState h g) _ _ Ha), (@load_bool_at (Store.mkState h g) _ _ Hk).
  unfold Store.lift. now destruct (masked_fill_ t mk v).
Qed.

Lemma div_run (a : Store.loc) (t : tensor3 xreal) (c : R) :
  nth_error h a = Some (Store.ScoreTensor t) ->
  Store.div a c (Store.mkState h g)
  = (Ok (length h), Store.mkState (h ++ [Store.ScoreTensor (div_scalar t c)]) g).
Proof.
  intros Ha. unfold Store.div, Store.bind.
  now rewrite (@load_score_at (Store.mkState h g) _ _ Ha).
Qed.

Lemma softmax_run (a : Store.loc) (t : tensor3 xreal) :
  nth_error h a = Some (Store.ScoreTensor t) ->
  Store.softmax a (Store.mkState h g)
  = (Ok (length h), Store.mkState (h ++ [Store.FloatTensor (softmax t)]) g).
Proof.
  intros Ha. unfold Store.softmax, Store.bind.
  now rewrite (@load_score_at (Store.mkState h g) _ _ Ha).
Qed.

Lemma call_dropout_run (p : Q) (tr : bool) (a : Store.loc) (t : tensor3 R) :
  nth_error h a = Some (Store.FloatTensor t) ->
  Store.call_dropout p tr a (Store.mkState h g)
  = if Qeq_bool p 0 || negb tr then (Ok a, Store.mkState h g)
    else match Dropout_forward p tr t g with
         | Ok (r, g') => (Ok (length h), Store.mkState (h ++ [Store.FloatTensor r]) g')
         | Raise e => (Raise e, Store.mkState h g)
         end.
Proof.
  intros Ha. unfold Store.call_dropout, Store.bind.
  rewrite (@load_float_at (Store.mkState h g) _ _ Ha).
  destruct (Qeq_bool p 0 || negb tr); [reflexivity|].
  unfold Store.draw. cbn [Store.rng Store.heap].
  now destruct (Dropout_forward p tr t g) as [[r g']|e].
Qed.

End Steps.

Lemma update_app_old (l : Store.loc) (o : Store.object) (h e : list Store.object) :
  (l < length h)%nat -> Store.update l o (h ++ e) = Store.update l o h ++ e.
Proof.
  revert l. induction h as [|a h IH]; intros [|l] Hl; cbn in *; try lia; auto.
  f_equal. apply IH. lia.
Qed.

Lemma update_last (o a : Store.object) (h : list Store.object) :
  Store.update (length h) o (h ++ [a]) = h ++ [o].
Proof. induction h as [|b h IH]; cbn; [reflexivity | now rewrite IH]. Qed.

Ltac lookup :=
  repeat first [ apply lookup_last | apply lookup_app_old ]; eassumption.

Ltac old_cells :=
  intros l Hl; unfold Store.ret; cbn [Store.heap snd];
  repeat (rewrite nth_error_app1 by (rewrite ?length_app; cbn [length]; lia));
  reflexivity.

(** [Store.forward] computes what [forward] computes, allocating as it
    goes and overwriting only the scores it has allocated itself. *)
Lemma forward_simulation (h : list Store.object) (self : Store.module)
    (m : CausalAttention) (lx : Store.loc) (x : tensor3 R) (g : Generator) :
  Store.holds h self m ->
  nth_error h lx = Some (Store.FloatTensor x) ->
  framed h g (Qeq_bool (dropout m) 0 || negb (training m))
    (forward m x g) (Store.forward self lx (Store.mkState h g)).
Proof.
  intros [Hd Hq Hk Hv Hp Hmk Htr] Hx.
  unfold forward, bind, lift, attention_weights, Store.forward.
  unfold Store.bind at 1. erewrite load_float_at by (cbn [Store.heap]; lookup).
  unfold Store.bind at 1. erewrite call_linear_run by lookup.
  destruct (Linear_forward (W_key m) x) as [keys|e]; cbn [and_then];
    [|split; [old_cells | split; reflexivity]].
  unfold Store.bind at 1. erewrite call_linear_run by lookup.
  destruct (Linear_forward (W_query m) x) as [queries|e]; cbn [and_then];
    [|split; [old_cells | split; reflexivity]].
  unfold Store.bind at 1. erewrite call_linear_run by lookup.
  destruct (Linear_forward (W_value m) x) as [values|e]; cbn [and_then];
    [|split; [old_cells | split; reflexivity]].
  unfold Store.bind at 1. erewrite transpose_run by lookup.
  unfold Store.bind at 1. erewrite matmul_run by lookup.
  destruct (matmul queries (transpose12 keys)) as [scores|e]; cbn [and_then];
    [|split; [old_cells | split; reflexivity]].
  unfold Store.bind at 1. erewrite to_bool_run by lookup.
  unfold Store.bind at 1. erewrite slice_run by lookup.
  unfold Store.bind at 1. erewrite masked_fill_run by lookup.
  destruct (masked_fill_ scores _ NegInf) as [masked|e]; cbn [and_then];
    [|split; [old_cells | split; reflexivity]].
  rewrite !update_app_old by (rewrite ?length_app; cbn [length]; lia).
  rewrite update_last.
  unfold Store.bind at 1. erewrite load_float_at by (cbn [Store.heap]; lookup).
  unfold Store.bind at 1. erewrite div_run by lookup.
  unfold Store.bind at 1. erewrite softmax_run by lookup.
  unfold Store.bind at 1. erewrite call_dropout_run by lookup.
  rewrite Hp, Htr. unfold Dropout_forward at 1.
  destruct (Qeq_bool (dropout m) 0 || negb (training m)) eqn:Hoff.
  - unfold Store.bind at 1. erewrite matmul_run by lookup.
    destruct (matmul _ values) as [context_vec|e];
      [|split; [old_cells | split; reflexivity]].
    unfold Store.ret, ret.
    split; [old_cells|]. split; [reflexivity|]. cbn [fst snd Store.heap Store.rng].
    split; [rewrite !length_app; lia|]. split; [lookup | reflexivity].
  - unfold Dropout_forward. rewrite Hoff.
    destruct (Qeq_bool (dropout m) 1); cbv beta iota;
      unfold Store.bind at 1; (erewrite matmul_run by lookup);
      (destruct (matmul _ values) as [context_vec|e];
       [|split; [old_cells | split; [discriminate | reflexivity]]]);
      unfold Store.ret, ret;
      (split; [old_cells|]); (split; [discriminate|]);
      cbn [fst snd Store.heap Store.rng];
      (split; [rewrite !length_app; lia|]); (split; [lookup | reflexivity]).
Qed.

(** ** Concrete runs *)

Example causal_mask_3 :
  data2 (to_bool (triu (ones 3 3) 1))
  = [[false; true; true]; [false; false; true]; [false; false; false]].
Proof. reflexivity. Qed.

Example causal_mask_slice_2_of_3 :
  slice2 false (to_bool (triu (ones 3 3) 1)) 2 2
  = T2 2 2 [[false; true]; [false; false]].
Proof. reflexivity. Qed.

Example causal_mask_slice_clamped :
  slice2 false (to_bool (triu (ones 1 1) 1)) 2 2 = T2 1 1 [[false]].
Proof. reflexivity. Qed.

Example wrong_width_raises : forward ca one_token drops_all = Raise RuntimeError.
Proof. reflexivity. Qed.

Example too_long_raises :
  forward (copying 2 0) (T3 1 3 1 [[[1]; [1]; [1]]]) drops_all = Raise RuntimeError.
Proof. reflexivity. Qed.

Example dropout_out_of_range : init 3 2 6 (3 # 2) false qkv_3_2 = Raise ValueError.
Proof. reflexivity. Qed.

Example notebook_module : init 3 2 6 0 false qkv_3_2 = Ok ca.
Proof. reflexivity. Qed.

Example store_run_result :
  fst (Store.forward (small_self 0) 0%nat (Store.mkState (small_store 0) drops_all))
  = Ok 14%nat.
Proof. reflexivity. Qed.

Example store_scores_overwritten :
  exists t,
    nth_error
      (Store.heap (snd (Store.forward (small_self 0) 0%nat
                          (Store.mkState (small_store 0) drops_all)))) 9%nat
    = Some (Store.ScoreTensor t).
Proof. eexists. reflexivity. Qed.

(** Under a broadcast [1 x 1] mask nothing is masked: the first of two
    equal tokens gives half of its attention to the second. *)
Example broadcast_mask_hides_nothing :
  exists w v,
    attention_weights (copying 1 0) two_tokens = Ok (w, v) /\
    get3 0 w 0 0 1 = 1 / 2.
Proof.
  do 2 eexists. split.
  - rewrite (attention_weights_run two_tokens (copying_shape 1 0)). reflexivity.
  - cbn [two_tokens dim0 dim1 dim2]. rewrite get3_build3 by lia.
    unfold run_weight, run_score, sum_upto. cbn.
    set (e := exp _). assert (0 < e) by apply exp_pos. field. lra.
Qed.

(** ** The claims *)

(** C1 (as stated, refuted).  With dropout probability 1/2 and a draw that
    drops the only attention weight, [forward] returns 0 for a token whose
    value projection is 1, while the formula [softmax(M(Q K^T) / sqrt(d_out)) V]
    gives 1. *)
Lemma forward_formula_fails_with_dropout :
  init 1 1 1 (1 # 2) false qkv_1_1 = Ok (copying 1 (1 # 2)) /\
  dim2 one_token = 1%nat /\ (dim1 one_token <= 1)%nat /\
  value_of (forward (copying 1 (1 # 2)) one_token drops_all)
  <> Ok (attention_formula (copying 1 (1 # 2)) one_token).
Proof.
  split; [reflexivity|]. split; [reflexivity|]. split; [cbn; lia|].
  rewrite (forward_run one_token drops_all (copying_shape 1 (1 # 2))).
  cbn [one_token dim0 dim1 dim2 Nat.eqb Nat.leb andb orb value_of and_then fst].
  intros H.
  apply (f_equal (fun r => match r with Ok t => get3 0 t 0 0 0 | Raise _ => 0 end)) in H.
  unfold attention_formula in H. cbn [one_token dim0 dim1 dim2] in H.
  rewrite !get3_build3 in H by (cbn; lia).
  rewrite !(sum_upto_single (i := 0%nat)) in H by (intros; lia).
  rewrite softmax_weight_first_row in H by (cbn; lia).
  unfold dropout_factor, proj in H. cbn in H.
  unfold sum_upto in H. cbn in H. lra.
Qed.

(** C1 (amended).  For a module built by [__init__] with dropout
    probability 0 and every batch [x] of shape [(b, n, d_in)] with [n] not
    above the context length, [forward] returns
    [softmax(M(Q K^T) / sqrt(d_out)) V] per batch element, with [Q], [K],
    [V] the three projections of [x], [M] putting [-inf] at every [(i, j)]
    with [j > i], and the divisor the square root of the output width. *)
Theorem forward_attention_formula
    (d_in d_o L : nat) (p : Q) (qb : bool) (th : qkv_values)
    (m : CausalAttention) (x : tensor3 R) (g : Generator) :
  init d_in d_o L p qb th = Ok m ->
  (p == 0)%Q ->
  dim2 x = d_in -> (dim1 x <= L)%nat ->
  forward m x g = Ok (attention_formula m x, g).
Proof.
  intros Hinit Hp Hd HL.
  destruct (init_shape _ _ _ _ _ _ Hinit) as (Hm & _ & Hdrop & _).
  apply forward_run_off with (d_in := d_in) (L := L); try assumption.
  now rewrite Hdrop.
Qed.

Lemma forward_attention_formula_witness :
  init 3 2 6 0 false qkv_3_2 = Ok ca /\
  forward ca batch drops_all = Ok (attention_formula ca batch, drops_all).
Proof.
  split; [reflexivity|].
  apply (@forward_attention_formula 3 2 6 0 false qkv_3_2 ca batch drops_all).
  - reflexivity.
  - reflexivity.
  - reflexivity.
  - cbn. lia.
Defined.

(** C3 (failing input).  A module with context length 1 accepts a
    two-token batch and masks nothing in it, so the context vector at
    position 0 follows the token at position 1: on [two_tokens] and
    [two_tokens_changed], which hold the same first token, [forward]
    returns 1 and a number below 1 at position 0. *)
Lemma future_token_leaks_at_context_length_1 :
  init 1 1 1 0 false qkv_1_1 = Ok (copying 1 0) /\
  dim0 two_tokens = dim0 two_tokens_changed /\
  dim1 two_tokens = dim1 two_tokens_changed /\
  dim2 two_tokens = dim2 two_tokens_changed /\
  get3 0 two_tokens 0 0 0 = get3 0 two_tokens_changed 0 0 0 /\
  exists out out',
    value_of (forward (copying 1 0) two_tokens drops_all) = Ok out /\
    value_of (forward (copying 1 0) two_tokens_changed drops_all) = Ok out' /\
    get3 0 out 0 0 0 = 1 /\ get3 0 out' 0 0 0 < 1.
Proof.
  split; [reflexivity|]. do 4 (split; [reflexivity|]).
  do 2 eexists. split; [|split].
  - rewrite (forward_run two_tokens drops_all (copying_shape 1 0)).
    cbn [two_tokens dim0 dim1 dim2 Nat.eqb Nat.leb andb orb value_of and_then fst].
    reflexivity.
  - rewrite (forward_run two_tokens_changed drops_all (copying_shape 1 0)).
    cbn [two_tokens_changed dim0 dim1 dim2 Nat.eqb Nat.leb andb orb value_of
         and_then fst].
    reflexivity.
  - cbn [copying d_out W_value]. rewrite !get3_build3 by lia. split.
    + unfold run_weight, run_score, dropout_factor, proj, qk, sum_upto. cbn.
      set (e := exp _). assert (0 < e) by apply exp_pos. field. lra.
    + unfold run_weight, run_score, dropout_factor, proj, qk, sum_upto. cbn.
      set (e := exp _). set (e' := exp _).
      assert (0 < e) by apply exp_pos. assert (0 < e') by apply exp_pos.
      apply Rmult_lt_reg_r with (r := e + (e' + 0)); [lra|].
      field_simplify; lra.
Qed.

(** C4 (as stated, refuted).  With dropout probability 1/2 and a draw that
    drops the single attention weight, [forward] on a one-token batch
    returns 0 where the value projection of the token is 1. *)
Lemma single_token_fails_with_dropout :
  init 1 1 1 (1 # 2) false qkv_1_1 = Ok (copying 1 (1 # 2)) /\
  dim1 one_token = 1%nat /\
  exists out v g',
    forward (copying 1 (1 # 2)) one_token drops_all = Ok (out, g') /\
    Linear_forward (W_value (copying 1 (1 # 2))) one_token = Ok v /\
    get3 0 out 0 0 0 = 0 /\ get3 0 v 0 0 0 = 1.
Proof.
  split; [reflexivity|]. split; [reflexivity|].
  do 3 eexists. split; [|split].
  - rewrite (forward_run one_token drops_all (copying_shape 1 (1 # 2))).
    reflexivity.
  - reflexivity.
  - cbn [one_token dim0 dim1 dim2 copying d_out]. split.
    + rewrite get3_build3 by lia.
      rewrite (sum_upto_single (i := 0%nat)) by (intros; lia).
      unfold dropout_factor. cbn. ring.
    + cbn. unfold proj, sum_upto. cbn. lra.
Qed.

(** C4 (amended).  For every batch of sequence length 1, a positive
    output width and entries and weights within the limits that keep the
    floats finite, the single attention weight is 1, and with dropout
    probability 0 the context tensor returned by [forward] is the value
    projection of the batch. *)
Theorem single_token_attention
    (d_in d_o L : nat) (p : Q) (qb : bool) (th : qkv_values)
    (m : CausalAttention) (x : tensor3 R) (g : Generator) :
  init d_in d_o L p qb th = Ok m ->
  (d_in <= width_limit)%nat -> (0 < d_o <= width_limit)%nat ->
  module_within_limit m -> tensor_within_limit x ->
  dim2 x = d_in -> dim1 x = 1%nat -> (1 <= L)%nat ->
  exists w v,
    attention_weights m x = Ok (w, v) /\
    Linear_forward (W_value m) x = Ok v /\
    (forall b, (b < dim0 x)%nat -> row3 w b 0 = [1]) /\
    ((p == 0)%Q -> forward m x g = Ok (v, g)).
Proof.
  intros Hinit _ _ _ _ Hd Hn HL.
  destruct (init_shape _ _ _ _ _ _ Hinit) as (Hm & _ & Hdrop & _).
  assert (HnL : (dim1 x <= L)%nat) by lia.
  eexists. eexists. split; [exact (attention_weights_fits x Hm Hd HnL)|].
  split; [exact (value_projection x Hm Hd)|]. split.
  - intros b Hb. rewrite row3_build3 by lia. rewrite Hn. cbn [tab seq map].
    rewrite softmax_weight_first_row by lia. reflexivity.
  - intros Hp.
    rewrite forward_run_off with (d_in := d_in) (L := L); try assumption.
    2:{ now rewrite Hdrop. }
    do 2 f_equal. unfold attention_formula.
    apply build3_ext. intros b i c Hb Hi Hc.
    assert (i = 0%nat) as -> by lia.
    rewrite (sum_upto_single (i := 0%nat)) by (intros; lia).
    rewrite softmax_weight_first_row by lia. cbn [Nat.eqb]. ring.
Qed.

Lemma single_token_attention_witness :
  exists w v,
    attention_weights (copying 1 0) one_token = Ok (w, v) /\
    Linear_forward (W_value (copying 1 0)) one_token = Ok v /\
    (forall b, (b < dim0 one_token)%nat -> row3 w b 0 = [1]) /\
    ((0 == 0)%Q -> forward (copying 1 0) one_token drops_all = Ok (v, drops_all)).
Proof.
  apply (@single_token_attention 1 1 1 0 false qkv_1_1 (copying 1 0) one_token drops_all).
  - reflexivity.
  - unfold width_limit. lia.
  - unfold width_limit. lia.
  - within_limits.
  - within_limits.
  - reflexivity.
  - reflexivity.
  - lia.
Defined.

(** C5.  Determinism: with the weights and the mask fixed and dropout
    probability 0, two calls of [forward] on the same batch return the same
    result, whatever the state of the random generator at each call. *)
Theorem forward_deterministic
    (d_in d_o L : nat) (p : Q) (qb : bool) (th : qkv_values)
    (m : CausalAttention) (x : tensor3 R) (g1 g2 : Generator) :
  init d_in d_o L p qb th = Ok m ->
  (p == 0)%Q ->
  value_of (forward m x g1) = value_of (forward m x g2).
Proof.
  intros Hinit Hp.
  destruct (init_shape _ _ _ _ _ _ Hinit) as (Hm & _ & Hdrop & _).
  rewrite <- Hdrop in Hp.
  rewrite (forward_run x g1 Hm), (forward_run x g2 Hm).
  destruct ((dim2 x =? d_in)%nat && ((dim1 x <=? L)%nat || (L =? 1)%nat));
    [|reflexivity].
  cbn [value_of and_then fst]. f_equal.
  apply build3_ext. intros b i c _ _ _.
  apply sum_upto_ext. intros j _.
  now rewrite !dropout_factor_off.
Qed.

Lemma forward_deterministic_witness :
  value_of (forward ca batch drops_all) = value_of (forward ca batch keeps_first).
Proof.
  apply (@forward_deterministic 3 2 6 0 false qkv_3_2 ca batch drops_all keeps_first).
  - reflexivity.
  - reflexivity.
Defined.

(** C6 (as stated, refuted).  With dropout probability 1/2 the two batch
    elements draw their own dropout outcomes: when the weight of the first
    copy is kept and that of the second is dropped, the two output slices
    of a batch of two copies of one sequence differ. *)
Lemma stacked_copies_differ_with_dropout :
  init 1 1 1 (1 # 2) false qkv_1_1 = Ok (copying 1 (1 # 2)) /\
  exists out g',
    forward (copying 1 (1 # 2)) (stack2 1 1 [[1]]) keeps_first = Ok (out, g') /\
    nth 0 (data3 out) [] <> nth 1 (data3 out) [].
Proof.
  split; [reflexivity|].
  do 2 eexists. split.
  - rewrite (forward_run (stack2 1 1 [[1]]) keeps_first (copying_shape 1 (1 # 2))).
    reflexivity.
  - cbn [stack2 dim0 dim1 dim2 copying d_out build3 data3 tab seq map nth].
    intros H. injection H as H.
    rewrite !(sum_upto_single (i := 0%nat)) in H by (intros; lia).
    rewrite !run_weight_fits in H by (cbn; lia).
    rewrite !softmax_weight_first_row in H by (cbn; lia).
    unfold dropout_factor, proj, sum_upto in H. cbn in H.
    assert (Hq : Q2R (1 # 2) = / 2) by (unfold Q2R; cbn; lra).
    rewrite Hq in H. lra.
Qed.

(** C6 (amended).  Batch independence: with dropout probability 0, for
    every sequence [s] of valid length, [forward] on the batch of two
    copies of [s] returns the same slice for both batch elements. *)
Theorem stacked_copies_agree
    (d_in d_o L : nat) (p : Q) (qb : bool) (th : qkv_values)
    (m : CausalAttention) (n : nat) (s : list (list R)) (g : Generator) :
  init d_in d_o L p qb th = Ok m ->
  (p == 0)%Q ->
  (n <= L)%nat ->
  exists o, forward m (stack2 n d_in s) g = Ok (T3 2 n d_o [o; o], g).
Proof.
  intros Hinit Hp HL.
  destruct (init_shape _ _ _ _ _ _ Hinit) as (Hm & Hdo & Hdrop & _).
  rewrite <- Hdrop in Hp.
  rewrite (@forward_run_off d_in L m (stack2 n d_in s) g Hm Hp eq_refl HL).
  unfold attention_formula, build3.
  cbn [stack2 dim0 dim1 dim2 tab seq map]. rewrite Hdo.
  match goal with
  | |- exists _, Ok (T3 _ _ _ [?a; ?b], _) = _ => exists a; assert (Hab : a = b)
  end.
  { apply tab_ext. intros i Hi. apply tab_ext. intros c Hc.
    apply (@formula_agree d_in L m (stack2 n d_in s) (stack2 n d_in s) 0 1 i Hm eq_refl).
    intros t a _ _. reflexivity. }
  now rewrite <- Hab.
Qed.

Lemma stacked_copies_agree_witness :
  exists o, forward ca batch drops_all = Ok (T3 2 6 2 [o; o], drops_all).
Proof.
  apply (@stacked_copies_agree 3 2 6 0 false qkv_3_2 ca 6 inputs drops_all).
  - reflexivity.
  - reflexivity.
  - lia.
Defined.

(** C7 (failing input).  A module with context length 1 does not reject
    a two-token batch: the sliced mask has shape [1 x 1], which
    [masked_fill_] broadcasts over the [2 x 2] scores where every longer
    mask makes it raise, so [forward] returns a full-size result although
    the sequence is longer than the context length. *)
Lemma longer_sequence_accepted :
  init 1 1 1 0 false qkv_1_1 = Ok (copying 1 0) /\
  dim2 two_tokens = 1%nat /\ (1 < dim1 two_tokens)%nat /\
  exists out g',
    forward (copying 1 0) two_tokens drops_all = Ok (out, g') /\
    dim1 out = 2%nat.
Proof.
  split; [reflexivity|]. split; [reflexivity|]. split; [cbn; lia|].
  do 2 eexists. split.
  - rewrite (forward_run two_tokens drops_all (copying_shape 1 0)). reflexivity.
  - reflexivity.
Qed.

(** C8 (as stated, refuted).  With dropout probability 1/2 a call of
    [forward] draws one random number per attention weight: after the call
    the global generator is in another state, an effect the caller can
    observe besides the returned tensor. *)
Lemma forward_advances_generator :
  Store.holds (small_store (1 # 2)) (small_self (1 # 2)) (copying 1 (1 # 2)) /\
  nth_error (small_store (1 # 2)) 0%nat = Some (Store.FloatTensor one_token) /\
  is_ok (fst (Store.forward (small_self (1 # 2)) 0%nat
                (Store.mkState (small_store (1 # 2)) drops_all))) = true /\
  Store.rng (snd (Store.forward (small_self (1 # 2)) 0%nat
                    (Store.mkState (small_store (1 # 2)) drops_all)))
  <> drops_all.
Proof.
  split; [split; reflexivity|]. split; [reflexivity|]. split; [reflexivity|].
  intros H. apply (f_equal offset) in H. discriminate H.
Qed.

(** C8 (amended).  Frame condition: a call of [forward] leaves every object
    that existed before the call as it was, among them the input batch,
    the three projections and the mask buffer; its result is a new object
    holding the context tensor; and with dropout probability 0 the random
    generator is left as it was too, so that the returned tensor is the
    only effect the caller can observe. *)
Theorem forward_frame
    (h : list Store.object) (self : Store.module) (m : CausalAttention)
    (lx : Store.loc) (x : tensor3 R) (g : Generator) :
  Store.holds h self m ->
  nth_error h lx = Some (Store.FloatTensor x) ->
  let rs := Store.forward self lx (Store.mkState h g) in
  (forall l, (l < length h)%nat ->
     nth_error (Store.heap (snd rs)) l = nth_error h l) /\
  Store.holds (Store.heap (snd rs)) self m /\
  nth_error (Store.heap (snd rs)) lx = Some (Store.FloatTensor x) /\
  (forall lout, fst rs = Ok lout ->
     (length h <= lout)%nat /\
     exists out,
       nth_error (Store.heap (snd rs)) lout = Some (Store.FloatTensor out) /\
       value_of (forward m x g) = Ok out) /\
  ((dropout m == 0)%Q -> Store.rng (snd rs) = g).
Proof.
  intros Hself Hx rs.
  destruct (@forward_simulation h self m lx x g Hself Hx) as (Hold & Hrng & Hres).
  fold rs in Hold, Hrng, Hres.
  assert (Hkeep : forall l o, nth_error h l = Some o ->
                              nth_error (Store.heap (snd rs)) l = Some o).
  { intros l o Hl. rewrite Hold; [exact Hl|].
    apply nth_error_Some. congruence. }
  split; [exact Hold|]. split; [|split; [|split]].
  - destruct Hself as [Hd Hq Hk Hv Hp Hmk Htr]. split; auto.
  - now apply Hkeep.
  - intros lout Hout. rewrite Hout in Hres.
    destruct (forward m x g) as [[out g']|e]; [|contradiction].
    destruct Hres as (Hfresh & Hcell & _).
    split; [exact Hfresh|]. exists out. split; [exact Hcell | reflexivity].
  - intros Hp. apply Hrng. apply Qeq_bool_iff in Hp. now rewrite Hp.
Qed.

Lemma forward_frame_witness :
  let rs := Store.forward (small_self 0) 0%nat (Store.mkState (small_store 0) drops_all) in
  (forall l, (l < length (small_store 0))%nat ->
     nth_error (Store.heap (snd rs)) l = nth_error (small_store 0) l) /\
  Store.holds (Store.heap (snd rs)) (small_self 0) (copying 1 0) /\
  nth_error (Store.heap (snd rs)) 0%nat = Some (Store.FloatTensor one_token) /\
  (forall lout, fst rs = Ok lout ->
     (length (small_store 0) <= lout)%nat /\
     exists out,
       nth_error (Store.heap (snd rs)) lout = Some (Store.FloatTensor out) /\
       value_of (forward (copying 1 0) one_token drops_all) = Ok out) /\
  ((dropout (copying 1 0) == 0)%Q -> Store.rng (snd rs) = drops_all).
Proof.
  apply (@forward_frame (small_store 0) (small_self 0) (copying 1 0) 0%nat one_token
           drops_all).
  - split; reflexivity.
  - reflexivity.
Defined.



(** C10 (as stated, refuted).  With dropout probability 1/2 and a draw
    that drops every attention weight, the context vector at position 0 of
    a two-token batch is 0 where the value projection of the first token
    is 1. *)
Lemma first_context_fails_with_dropout :
  init 1 1 2 (1 # 2) false qkv_1_1 = Ok (copying 2 (1 # 2)) /\
  dim2 two_tokens = 1%nat /\ (dim1 two_tokens <= 2)%nat /\
  exists out v g',
    forward (copying 2 (1 # 2)) two_tokens drops_all = Ok (out, g') /\
    Linear_forward (W_value (copying 2 (1 # 2))) two_tokens = Ok v /\
    row3 out 0 0 <> row3 v 0 0.
Proof.
  split; [reflexivity|]. split; [reflexivity|]. split; [cbn; lia|].
  do 3 eexists. split; [|split].
  - rewrite (forward_run two_tokens drops_all (copying_shape 2 (1 # 2))).
    reflexivity.
  - reflexivity.
  - cbn [two_tokens dim0 dim1 dim2 copying d_out W_value Linear_init out_features].
    rewrite !row3_build3 by lia. cbn [tab seq map].
    intros H. injection H as H.
    rewrite sum_upto_zero in H.
    + unfold proj, sum_upto in H. cbn in H. lra.
    + intros j _. unfold dropout_factor. cbn. ring.
Qed.

(** C10 (amended).  For every valid batch of any positive sequence
    length, a positive output width and entries and weights within the
    limits that keep the floats finite, the first row of the
    attention-weight matrix is the one-hot distribution [[1, 0, ..., 0]];
    with dropout probability 0 the context vector at position 0 is the
    value projection of the first token, whatever else within the limits
    the rest of the sequence holds. *)
Theorem first_row_one_hot
    (d_in d_o L : nat) (p : Q) (qb : bool) (th : qkv_values)
    (m : CausalAttention) (x : tensor3 R) (g : Generator) :
  init d_in d_o L p qb th = Ok m ->
  (d_in <= width_limit)%nat -> (0 < d_o <= width_limit)%nat ->
  module_within_limit m -> tensor_within_limit x ->
  dim2 x = d_in -> (dim1 x <= L)%nat -> (0 < dim1 x)%nat ->
  exists w v,
    attention_weights m x = Ok (w, v) /\
    Linear_forward (W_value m) x = Ok v /\
    (forall b, (b < dim0 x)%nat ->
       row3 w b 0 = tab (dim1 x) (fun j => if (j =? 0)%nat then 1 else 0)) /\
    ((p == 0)%Q ->
     exists out,
       forward m x g = Ok (out, g) /\
       forall b, (b < dim0 x)%nat -> row3 out b 0 = row3 v b 0).
Proof.
  intros Hinit _ _ _ _ Hd HL Hn.
  destruct (init_shape _ _ _ _ _ _ Hinit) as (Hm & _ & Hdrop & _).
  eexists. eexists. split; [exact (attention_weights_fits x Hm Hd HL)|].
  split; [exact (value_projection x Hm Hd)|]. split.
  - intros b Hb. rewrite row3_build3 by assumption.
    apply tab_ext. intros j _. now apply softmax_weight_first_row.
  - intros Hp. exists (attention_formula m x). split.
    + apply forward_run_off with (d_in := d_in) (L := L); try assumption.
      now rewrite Hdrop.
    + intros b Hb. now apply attention_formula_first_row.
Qed.

Lemma first_row_one_hot_witness :
  exists w v,
    attention_weights ca batch = Ok (w, v) /\
    Linear_forward (W_value ca) batch = Ok v /\
    (forall b, (b < dim0 batch)%nat ->
       row3 w b 0 = tab (dim1 batch) (fun j => if (j =? 0)%nat then 1 else 0)) /\
    ((0 == 0)%Q ->
     exists out,
       forward ca batch drops_all = Ok (out, drops_all) /\
       forall b, (b < dim0 batch)%nat -> row3 out b 0 = row3 v b 0).
Proof.
  apply (@first_row_one_hot 3 2 6 0 false qkv_3_2 ca batch drops_all).
  - reflexivity.
  - unfold width_limit. lia.
  - unfold width_limit. lia.
  - within_limits.
  - within_limits.
  - reflexivity.
  - cbn. lia.
  - cbn. lia.
Defined.

(** ** Further properties of the module *)

(** X1.  The mask registered by [__init__] is square of side
    [context_length], and read as booleans it is true exactly at the
    strictly future positions, [j > i]; the diagonal is never masked. *)
Theorem init_mask_strictly_upper
    (d_in d_o L : nat) (p : Q) (qb : bool) (th : qkv_values)
    (m : CausalAttention) :
  init d_in d_o L p qb th = Ok m ->
  rows (mask m) = L /\ cols (mask m) = L /\
  forall i j, (i < L)%nat -> (j < L)%nat ->
    get2 false (to_bool (mask m)) i j = (i <? j)%nat.
Proof.
  intros Hinit. apply init_inv in Hinit as [_ ->]. cbn [mask].
  split; [reflexivity|]. split; [reflexivity|].
  intros i j Hi Hj. unfold to_bool, triu, ones. cbn [rows cols build2].
  rewrite !get2_build2 by assumption.
  destruct (Z.leb_spec 1 (Z.of_nat j - Z.of_nat i));
    destruct (Nat.ltb_spec i j); try lia; reflexivity.
Qed.

Lemma init_mask_strictly_upper_witness :
  rows (mask ca) = 6%nat /\ cols (mask ca) = 6%nat /\
  forall i j, (i < 6)%nat -> (j < 6)%nat ->
    get2 false (to_bool (mask ca)) i j = (i <? j)%nat.
Proof.
  apply (@init_mask_strictly_upper 3 2 6 0 false qkv_3_2 ca).
  reflexivity.
Defined.

(** X12.  A batch of sequences without tokens is accepted by every
    module, whatever its context length and dropout probability: the
    result has shape [(b, 0, d_out)] and no entries. *)
Theorem empty_sequence_accepted
    (d_in d_o L : nat) (p : Q) (qb : bool) (th : qkv_values)
    (m : CausalAttention) (x : tensor3 R) (g : Generator) :
  init d_in d_o L p qb th = Ok m ->
  dim2 x = d_in -> dim1 x = 0%nat ->
  value_of (forward m x g) = Ok (T3 (dim0 x) 0 d_o (repeat [] (dim0 x))).
Proof.
  intros Hinit Hd Hn.
  destruct (init_shape _ _ _ _ _ _ Hinit) as (Hm & Hdo & _).
  rewrite (forward_run x g Hm).
  apply Nat.eqb_eq in Hd. rewrite Hd, Hn, Hdo.
  cbn [Nat.leb andb orb value_of and_then fst]. f_equal.
  unfold build3. f_equal. cbn [tab seq map]. unfold tab.
  generalize 0%nat at 1. induction (dim0 x) as [|k IH]; intros s; cbn; [reflexivity|].
  now rewrite IH.
Qed.

Lemma empty_sequence_accepted_witness :
  value_of (forward (copying 0 (1 # 2)) no_tokens keeps_first)
  = Ok (T3 (dim0 no_tokens) 0 1 (repeat [] (dim0 no_tokens))).
Proof.
  apply (@empty_sequence_accepted 1 1 0 (1 # 2) false qkv_1_1 (copying 0 (1 # 2))
           no_tokens keeps_first).
  - reflexivity.
  - reflexivity.
  - reflexivity.
Defined.

(** X13.  For a valid batch, a positive output width and entries and
    weights within the limits that keep the floats finite, the attention
    weights have shape [(b, n, n)] and every weight at a strictly future
    position is exactly 0. *)
Theorem masked_weights_are_zero
    (d_in d_o L : nat) (p : Q) (qb : bool) (th : qkv_values)
    (m : CausalAttention) (x : tensor3 R) :
  init d_in d_o L p qb th = Ok m ->
  (d_in <= width_limit)%nat -> (0 < d_o <= width_limit)%nat ->
  module_within_limit m -> tensor_within_limit x ->
  dim2 x = d_in -> (dim1 x <= L)%nat ->
  exists w v,
    attention_weights m x = Ok (w, v) /\
    dim0 w = dim0 x /\ dim1 w = dim1 x /\ dim2 w = dim1 x /\
    forall b i j, (b < dim0 x)%nat -> (i < j)%nat -> (j < dim1 x)%nat ->
      get3 0 w b i j = 0.
Proof.
  intros Hinit _ _ _ _ Hd HL.
  destruct (init_shape _ _ _ _ _ _ Hinit) as (Hm & _).
  eexists. eexists. split; [exact (attention_weights_fits x Hm Hd HL)|].
  do 3 (split; [reflexivity|]).
  intros b i j Hb Hij Hj. rewrite get3_build3 by lia.
  now apply softmax_weight_future.
Qed.

Lemma masked_weights_are_zero_witness :
  exists w v,
    attention_weights ca batch = Ok (w, v) /\
    dim0 w = dim0 batch /\ dim1 w = dim1 batch /\ dim2 w = dim1 batch /\
    forall b i j, (b < dim0 batch)%nat -> (i < j)%nat -> (j < dim1 batch)%nat ->
      get3 0 w b i j = 0.
Proof.
  apply (@masked_weights_are_zero 3 2 6 0 false qkv_3_2 ca batch).
  - reflexivity.
  - unfold width_limit. lia.
  - unfold width_limit. lia.
  - within_limits.
  - within_limits.
  - reflexivity.
  - cbn. lia.
Defined.

(** X14.  What the shape of the batch decides: [forward] raises
    [RuntimeError] when the feature width of the batch is not the
    configured input width, and when the sequence is longer than a context
    length other than 1; on a batch of the configured width that fits the
    context length it returns a tensor of shape [(b, n, d_out)]. *)
Theorem forward_outcome_by_shape
    (d_in d_o L : nat) (p : Q) (qb : bool) (th : qkv_values)
    (m : CausalAttention) (x : tensor3 R) (g : Generator) :
  init d_in d_o L p qb th = Ok m ->
  (dim2 x <> d_in -> forward m x g = Raise RuntimeError) /\
  (dim2 x = d_in -> (L < dim1 x)%nat -> L <> 1%nat ->
   forward m x g = Raise RuntimeError) /\
  (dim2 x = d_in -> (dim1 x <= L)%nat ->
   exists out g',
     forward m x g = Ok (out, g') /\
     dim0 out = dim0 x /\ dim1 out = dim1 x /\ dim2 out = d_o).
Proof.
  intros Hinit.
  destruct (init_shape _ _ _ _ _ _ Hinit) as (Hm & Hdo & _).
  rewrite (forward_run x g Hm). split; [|split].
  - intros Hd. destruct (Nat.eqb_spec (dim2 x) d_in); [contradiction | reflexivity].
  - intros Hd HL H1. apply Nat.eqb_eq in Hd. rewrite Hd.
    destruct (Nat.leb_spec (dim1 x) L); [lia|].
    destruct (Nat.eqb_spec L 1); [contradiction | reflexivity].
  - intros Hd HL. apply Nat.eqb_eq in Hd. apply Nat.leb_le in HL.
    rewrite Hd, HL. cbn [andb orb]. do 2 eexists. split; [reflexivity|].
    cbn [dim0 dim1 dim2 build3]. now rewrite Hdo.
Qed.

Lemma forward_outcome_by_shape_witness :
  (dim2 batch <> 3%nat -> forward ca batch drops_all = Raise RuntimeError) /\
  (dim2 batch = 3%nat -> (6 < dim1 batch)%nat -> 6%nat <> 1%nat ->
   forward ca batch drops_all = Raise RuntimeError) /\
  (dim2 batch = 3%nat -> (dim1 batch <= 6)%nat ->
   exists out g',
     forward ca batch drops_all = Ok (out, g') /\
     dim0 out = dim0 batch /\ dim1 out = dim1 batch /\ dim2 out = 2%nat).
Proof.
  apply (@forward_outcome_by_shape 3 2 6 0 false qkv_3_2 ca batch drops_all).
  reflexivity.
Defined.

(** X15.  On valid batches the future is not seen: for a position [i] and
    two batches of the same valid shape that agree on every position up to
    and including [i], with a positive output width and entries and
    weights within the limits that keep the floats finite, [forward]
    returns the same context vector at position [i] of every batch
    element (the two runs start from the same generator state, or from
    any two states when the dropout probability is 0). *)
Theorem context_ignores_future_tokens
    (d_in d_o L : nat) (p : Q) (qb : bool) (th : qkv_values)
    (m : CausalAttention) (x x' : tensor3 R) (g g' : Generator) (i : nat) :
  init d_in d_o L p qb th = Ok m ->
  (d_in <= width_limit)%nat -> (0 < d_o <= width_limit)%nat ->
  module_within_limit m -> tensor_within_limit x -> tensor_within_limit x' ->
  dim0 x = dim0 x' -> dim1 x = dim1 x' ->
  dim2 x = d_in -> dim2 x' = d_in ->
  (dim1 x <= L)%nat -> (i < dim1 x)%nat ->
  (forall b t a, (b < dim0 x)%nat -> (t <= i)%nat -> (a < d_in)%nat ->
     get3 0 x b t a = get3 0 x' b t a) ->
  (p == 0)%Q \/ g = g' ->
  exists out out',
    value_of (forward m x g) = Ok out /\
    value_of (forward m x' g') = Ok out' /\
    forall b, (b < dim0 x)%nat -> row3 out b i = row3 out' b i.
Proof.
  intros Hinit _ _ _ _ _ H0 H1 Hd Hd' HL Hi Hagree Hgen.
  destruct (init_shape _ _ _ _ _ _ Hinit) as (Hm & _ & Hdrop & _).
  assert (HL' : (dim1 x' <= L)%nat) by lia.
  assert (Hfactor : forall b j,
             dropout_factor m g (dim1 x) b i j = dropout_factor m g' (dim1 x) b i j).
  { intros b j. destruct Hgen as [Hp| ->]; [|reflexivity].
    rewrite <- Hdrop in Hp. now rewrite !dropout_factor_off. }
  rewrite (forward_run x g Hm), (forward_run x' g' Hm).
  apply Nat.eqb_eq in Hd, Hd'. apply Nat.leb_le in HL as HLb.
  apply Nat.leb_le in HL' as HLb'. rewrite Hd, Hd', HLb, HLb'.
  cbn [andb orb value_of and_then fst].
  do 2 eexists. split; [reflexivity|]. split; [reflexivity|].
  intros b Hb. rewrite <- H0, <- H1. rewrite !row3_build3 by lia.
  apply tab_ext. intros c Hc.
  etransitivity;
    [apply sum_upto_ext; intros j _; rewrite run_weight_fits by exact HL;
     reflexivity|].
  etransitivity;
    [|symmetry; apply sum_upto_ext; intros j _;
      rewrite run_weight_fits by exact HL'; rewrite <- Hfactor; reflexivity].
  apply (@context_agree d_in L m x x' b b i Hm H1).
  intros t a Ht Ha. now apply Hagree.
Qed.

Lemma context_ignores_future_tokens_witness :
  exists out out',
    value_of (forward ca batch keeps_first) = Ok out /\
    value_of (forward ca batch_changed drops_all) = Ok out' /\
    forall b, (b < dim0 batch)%nat -> row3 out b 0 = row3 out' b 0.
Proof.
  apply (@context_ignores_future_tokens 3 2 6 0 false qkv_3_2 ca batch batch_changed
           keeps_first drops_all 0).
  - reflexivity.
  - unfold width_limit. lia.
  - unfold width_limit. lia.
  - within_limits.
  - within_limits.
  - within_limits.
  - reflexivity.
  - reflexivity.
  - reflexivity.
  - reflexivity.
  - cbn. lia.
  - cbn. lia.
  - intros b t a Hb Ht Ha. cbn in Hb.
    assert (t = 0%nat) as -> by lia.
    destruct b as [|[|b]]; [| |lia];
      (destruct a as [|[|[|a]]]; [reflexivity | reflexivity | reflexivity | lia]).
  - left. reflexivity.
Defined.

(** X16.  Batch elements do not see each other: without dropout, when
    element [b] of one valid batch and element [b'] of another batch of
    the same shape hold the same sequence, with a positive output width
    and entries and weights within the limits that keep the floats
    finite, [forward] returns the same context vectors for the two
    elements, whatever the other elements of the two batches hold. *)
Theorem batch_elements_independent
    (d_in d_o L : nat) (p : Q) (qb : bool) (th : qkv_values)
    (m : CausalAttention) (x x' : tensor3 R) (g g' : Generator) (b b' : nat) :
  init d_in d_o L p qb th = Ok m ->
  (p == 0)%Q ->
  (d_in <= width_limit)%nat -> (0 < d_o <= width_limit)%nat ->
  module_within_limit m -> tensor_within_limit x -> tensor_within_limit x' ->
  dim0 x = dim0 x' -> dim1 x = dim1 x' ->
  dim2 x = d_in -> dim2 x' = d_in -> (dim1 x <= L)%nat ->
  (b < dim0 x)%nat -> (b' < dim0 x)%nat ->
  (forall t a, (t < dim1 x)%nat -> (a < d_in)%nat ->
     get3 0 x b t a = get3 0 x' b' t a) ->
  exists out out',
    forward m x g = Ok (out, g) /\
    forward m x' g' = Ok (out', g') /\
    forall i, (i < dim1 x)%nat -> row3 out b i = row3 out' b' i.
Proof.
  intros Hinit Hp _ _ _ _ _ H0 H1 Hd Hd' HL Hb Hb' Hsame.
  destruct (init_shape _ _ _ _ _ _ Hinit) as (Hm & _ & Hdrop & _).
  rewrite <- Hdrop in Hp.
  assert (HL' : (dim1 x' <= L)%nat) by lia.
  rewrite (@forward_run_off d_in L m x g Hm Hp Hd HL).
  rewrite (@forward_run_off d_in L m x' g' Hm Hp Hd' HL').
  do 2 eexists. split; [reflexivity|]. split; [reflexivity|].
  intros i Hi. unfold attention_formula.
  rewrite !row3_build3 by lia.
  apply tab_ext. intros c Hc. rewrite <- H1.
  apply (@formula_agree d_in L m x x' b b' i Hm H1).
  intros t a Ht Ha. apply Hsame; lia.
Qed.

Lemma batch_elements_independent_witness :
  exists out out',
    forward ca batch drops_all = Ok (out, drops_all) /\
    forward ca batch_mixed keeps_first = Ok (out', keeps_first) /\
    forall i, (i < dim1 batch)%nat -> row3 out 0 i = row3 out' 1 i.
Proof.
  apply (@batch_elements_independent 3 2 6 0 false qkv_3_2 ca batch batch_mixed
           drops_all keeps_first 0 1).
  - reflexivity.
  - reflexivity.
  - unfold width_limit. lia.
  - unfold width_limit. lia.
  - within_limits.
  - within_limits.
  - within_limits.
  - reflexivity.
  - reflexivity.
  - reflexivity.
  - reflexivity.
  - cbn. lia.
  - cbn. lia.
  - cbn. lia.
  - intros t a _ _. reflexivity.
Defined.


